(** * PDF rasterizer (src/app.py): geometry, JPEG encoding and the
      rasterize-and-repaginate pipeline

    The development embeds the three functions of [src/app.py]:
    - [fit_rect_keep_aspect]: the centred, aspect-preserving placement
      rectangle;
    - [encode_pixmap_to_jpeg]: the JPEG encoder with its Pillow fallback;
    - [rasterize_pdf_to_images_pdf]: the orchestrator.

    The arithmetic of the geometry helper is written once, over an
    interface of number operations, and instantiated twice: with Python's
    own [float] (IEEE binary64, the kernel's primitive floats) and with the
    exact rationals [Q], the reading of the specification's "positive real
    numbers".  The collaborators of the pipeline (file system, PyMuPDF,
    Pillow) are an environment record whose fields answer each library
    call; the pipeline itself is a state-and-exception monad over a world
    holding the files, the destination document and the trace of library
    calls. *)

From Stdlib Require Import ZArith QArith Qminmax Lqa Lia.
From Stdlib Require Import List String Ascii Bool.
From Stdlib Require Import Floats Uint63.
Import ListNotations.

Set Implicit Arguments.

(* ================================================================= *)
(** ** Numbers: the operations [fit_rect_keep_aspect] uses *)

(** What the source needs of a Python [float]: conversion of an [int]
    operand (as in [page_w / img_w]), the four operations and [<]
    (used by [min]). *)
Class PyNum (T : Type) : Type := {
  of_int : Z -> T;
  nadd : T -> T -> T;
  nsub : T -> T -> T;
  nmul : T -> T -> T;
  ndiv : T -> T -> T;
  nltb : T -> T -> bool
}.

Declare Scope pynum_scope.
Delimit Scope pynum_scope with py.
Infix "+" := nadd : pynum_scope.
Infix "-" := nsub : pynum_scope.
Infix "*" := nmul : pynum_scope.
Infix "/" := ndiv : pynum_scope.

(** Exact rational arithmetic.  [Qdiv] by zero is [0] where Python raises
    [ZeroDivisionError]; every statement below keeps the divisors
    positive. *)
Definition Qltb (a b : Q) : bool :=
  match Qcompare a b with Lt => true | _ => false end.

#[export] Instance Q_PyNum : PyNum Q := {
  of_int := inject_Z;
  nadd := Qplus;
  nsub := Qminus;
  nmul := Qmult;
  ndiv := Qdiv;
  nltb := Qltb
}.

(** IEEE binary64, Python's [float].  An [int] operand is converted to the
    nearest double; the conversion below is the kernel's, for magnitudes
    below [2^63] (pixel counts are far below [2^53], where it is exact). *)
Definition float_of_int (z : Z) : float :=
  if (z <? 0)%Z
  then PrimFloat.opp (PrimFloat.of_uint63 (Uint63.of_Z (- z)))
  else PrimFloat.of_uint63 (Uint63.of_Z z).

#[export] Instance F64_PyNum : PyNum float := {
  of_int := float_of_int;
  nadd := PrimFloat.add;
  nsub := PrimFloat.sub;
  nmul := PrimFloat.mul;
  ndiv := PrimFloat.div;
  nltb := PrimFloat.ltb
}.

(* ================================================================= *)
(** ** Geometry helper *)

(** [fitz.Rect(x0, y0, x1, y1)]. *)
Record Rect (T : Type) : Type := mkRect {
  x0 : T;
  y0 : T;
  x1 : T;
  y1 : T
}.

Section Geometry.
Context {T : Type} `{PyNum T}.
Local Open Scope pynum_scope.

(** Python's builtin [min(a, b)]: the first argument is kept unless the
    second is strictly smaller. *)
Definition py_min (a b : T) : T := if nltb b a then b else a.

(** A4 in points, as the module constants are written: the decimal
    literals [595.2755905511812] and [841.8897637795277].  Numerator and
    denominator are exact in binary64, so the binary64 quotient is the
    double nearest to the literal (checked in [A4_literals_binary64]). *)
Definition A4_WIDTH_PT : T := of_int 5952755905511812 / of_int 10000000000000.
Definition A4_HEIGHT_PT : T := of_int 8418897637795277 / of_int 10000000000000.

(** [fit_rect_keep_aspect(img_w, img_h, page_w, page_h)], app.py:17-24. *)
Definition fit_rect_keep_aspect (img_w img_h : Z) (page_w page_h : T) : Rect T :=
  let scale := py_min (page_w / of_int img_w) (page_h / of_int img_h) in
  let w := of_int img_w * scale in
  let h := of_int img_h * scale in
  let x := (page_w - w) / of_int 2 in
  let y := (page_h - h) / of_int 2 in
  mkRect x y (x + w) (y + h).

(** Width and height of a rectangle, [x1 - x0] and [y1 - y0]. *)
Definition rect_width (r : Rect T) : T := x1 r - x0 r.
Definition rect_height (r : Rect T) : T := y1 r - y0 r.
End Geometry.

(** The geometry helper as the specification words it (section 4.1), over
    the rationals and with the mathematical minimum. *)
Definition fitRectKeepAspect_spec (imgW imgH : Z) (pageW pageH : Q) : Rect Q :=
  let scale := Qmin (pageW / inject_Z imgW) (pageH / inject_Z imgH) in
  let width := inject_Z imgW * scale in
  let height := inject_Z imgH * scale in
  let x := (pageW - width) / 2 in
  let y := (pageH - height) / 2 in
  mkRect x y (x + width) (y + height).

(* ================================================================= *)
(** ** Strings and paths ([pathlib]) *)

Local Open Scope string_scope.

(** [str.lower] on one character: the ASCII capitals move to the small
    letters, every other byte (UTF-8 continuation bytes included) stays. *)
Definition lower_ascii (c : ascii) : ascii :=
  let n := nat_of_ascii c in
  if ((65 <=? n) && (n <=? 90))%nat then ascii_of_nat (n + 32) else c.

Fixpoint string_lower (s : string) : string :=
  match s with
  | EmptyString => EmptyString
  | String c s' => String (lower_ascii c) (string_lower s')
  end.

(** [name.rfind('.')]: the index of the last dot, [-1] when there is none. *)
Fixpoint rfind_dot_from (s : string) : option nat :=
  match s with
  | EmptyString => None
  | String c s' =>
      match rfind_dot_from s' with
      | Some i => Some (S i)
      | None => if Ascii.eqb c "." then Some O else None
      end
  end.

Definition rfind_dot (s : string) : Z :=
  match rfind_dot_from s with
  | Some i => Z.of_nat i
  | None => (-1)%Z
  end.

(** A path as [pathlib] parses it: the components of the directory and
    the final component. *)
Record Path : Type := mkPath {
  parent : list string;
  name : string
}.

(** [PurePath.suffix]: [name[i:]] when [0 < i < len(name) - 1] for
    [i = name.rfind('.')], the empty string otherwise. *)
Definition suffix (p : Path) : string :=
  let i := rfind_dot (name p) in
  if ((0 <? i) && (i <? Z.of_nat (String.length (name p)) - 1))%Z
  then substring (Z.to_nat i) (String.length (name p) - Z.to_nat i) (name p)
  else "".

(** [PurePath.stem]: [name[:i]] under the same condition, else [name]. *)
Definition stem (p : Path) : string :=
  let i := rfind_dot (name p) in
  if ((0 <? i) && (i <? Z.of_nat (String.length (name p)) - 1))%Z
  then substring 0 (Z.to_nat i) (name p)
  else name p.

(** [str(path)], with the Windows separator between the components. *)
Definition path_str (p : Path) : string :=
  String.concat "\" (parent p ++ [name p]).

Definition path_eqb (p q : Path) : bool :=
  (if list_eq_dec string_dec (parent p) (parent q) then true else false)
  && String.eqb (name p) (name q).

(* ================================================================= *)
(** ** Exceptions, documents and the world *)

(** Python exceptions by class, with their message.  [OtherError] stands
    for any other [Exception] a library call raises. *)
Inductive exn : Type :=
| FileNotFoundError (msg : string)
| ValueError (msg : string)
| RuntimeError (msg : string)
| OtherError (msg : string).

(** [PurePath.with_name(name)]: a path with an empty name has none to
    replace. *)
Definition with_name (p : Path) (new_name : string) : exn + Path :=
  if String.eqb (name p) "" then inl (ValueError "path has an empty name")
  else inr (mkPath (parent p) new_name).

Definition bytes : Type := list Byte.byte.

(** A page of the source document; its content is opaque to the pipeline. *)
Record SrcPage : Type := mkSrcPage { page_content : string }.

(** What [fitz.open(path)] hands back: the password flag and the pages. *)
Record SrcDoc : Type := mkSrcDoc {
  needs_pass : bool;
  src_pages : list SrcPage
}.

Inductive Colorspace : Type := csGRAY | csRGB.

(** [fitz.Pixmap]: [width], [height], [colorspace.n] and [samples]. *)
Record Pixmap : Type := mkPixmap {
  pix_width : Z;
  pix_height : Z;
  colorspace_n : Z;
  samples : bytes
}.

(** [PIL.Image.Image] as [Image.frombytes(mode, size, data)] builds it. *)
Record PilImage : Type := mkPilImage {
  img_mode : string;
  img_size : Z * Z;
  img_data : bytes
}.

(** The Pillow module, when the import at the top of app.py succeeded. *)
Record Pillow : Type := mkPillow {
  frombytes_error : string -> Z * Z -> bytes -> option exn;
  jpeg_save : PilImage -> Z -> bool -> exn + bytes
}.

(** The two documents the orchestrator holds. *)
Inductive handle : Type := Src | Dst.

(** Library calls, in the order they are made. *)
Inductive event : Type :=
| EvOpen (p : Path)
| EvOpenEmpty
| EvLoadPage (i : nat)
| EvGetPixmap (page : SrcPage)
| EvGetImageData
| EvFrombytes
| EvImageSave
| EvNewPage
| EvInsertImage (pno : nat)
| EvSave (p : Path)
| EvClose (h : handle).

Definition is_close (h : handle) (e : event) : bool :=
  match e, h with
  | EvClose Src, Src => true
  | EvClose Dst, Dst => true
  | _, _ => false
  end.

(** How many times a document was closed in a trace. *)
Definition closes (h : handle) (t : list event) : nat :=
  List.length (filter (is_close h) t).

Definition is_render (e : event) : bool :=
  match e with EvGetPixmap _ => true | _ => false end.

Definition is_open (e : event) : bool :=
  match e with EvOpen _ | EvOpenEmpty => true | _ => false end.

Definition is_pillow (e : event) : bool :=
  match e with EvFrombytes | EvImageSave => true | _ => false end.

Section Pipeline.
Context {T : Type} `{PyNum T}.
Local Open Scope pynum_scope.

(** A page of the destination document: its size and the images placed
    on it, oldest first. *)
Record OutPage : Type := mkOutPage {
  page_width : T;
  page_height : T;
  images : list (Rect T * bytes)
}.

(** A file on disk: one that was there before the run (its content is
    read by [fitz_open] only), or a document written by [save]. *)
Inductive File : Type :=
| ExistingFile
| SavedPdf (pages : list OutPage).

(** The collaborators: each field is the answer of one library call. *)
Record Env : Type := mkEnv {
  fitz_open : Path -> exn + SrcDoc;
  fitz_open_empty : option exn;
  get_pixmap : SrcPage -> T -> T -> Colorspace -> bool -> exn + Pixmap;
  get_image_data : Pixmap -> string -> Z -> exn + bytes;
  Image : option Pillow;
  new_page_error : T -> T -> option exn;
  insert_image_error : Rect T -> bytes -> option exn;
  save_error : Path -> list OutPage -> option exn
}.

Record World : Type := mkWorld {
  files : Path -> option File;
  dst_pages : list OutPage;
  trace : list event
}.

(** State and exceptions: a computation runs in a world and either
    raises or returns, leaving a world behind in both cases. *)
Definition M (A : Type) : Type := World -> (exn + A) * World.

Definition ret {A} (a : A) : M A := fun w => (inr a, w).
Definition raise {A} (e : exn) : M A := fun w => (inl e, w).
Definition bind {A B} (m : M A) (k : A -> M B) : M B :=
  fun w => match m w with
           | (inl e, w') => (inl e, w')
           | (inr a, w') => k a w'
           end.
Definition lift {A} (r : exn + A) : M A := fun w => (r, w).
Definition lift_error (r : option exn) : M unit :=
  fun w => match r with Some e => (inl e, w) | None => (inr tt, w) end.
Definition log (e : event) : M unit :=
  fun w => (inr tt, mkWorld (files w) (dst_pages w) (trace w ++ [e])).
Definition get_world : M World := fun w => (inr w, w).

(** [try: body except Exception: handler]. *)
Definition try_except {A} (body : M A) (handler : exn -> M A) : M A :=
  fun w => match body w with
           | (inl e, w') => handler e w'
           | (inr a, w') => (inr a, w')
           end.

(** [try: body finally: cleanup]: the cleanup runs on both exits; an
    exception of the cleanup replaces the outcome of the body. *)
Definition try_finally {A} (body : M A) (cleanup : M unit) : M A :=
  fun w => match body w with
           | (r, w') =>
               match cleanup w' with
               | (inl e, w'') => (inl e, w'')
               | (inr _, w'') => (r, w'')
               end
           end.
End Pipeline.

Arguments OutPage T : clear implicits.
Arguments File T : clear implicits.
Arguments Env T : clear implicits.
Arguments World T : clear implicits.
Arguments M T A : clear implicits.

Declare Scope pipeline_scope.
Delimit Scope pipeline_scope with pipe.
Notation "x <- c ;; k" := (bind c (fun x => k))
  (at level 61, c at next level, right associativity) : pipeline_scope.
Notation "c ;; k" := (bind c (fun _ => k))
  (at level 61, right associativity) : pipeline_scope.

(* ================================================================= *)
(** ** The program *)

Section Program.
Context {T : Type} `{PyNum T}.
Variable env : Env T.
Local Open Scope pipeline_scope.

Definition modify (f : World T -> World T) : M T unit :=
  fun w => (inr tt, f w).

Fixpoint for_each {A} (xs : list A) (body : A -> M T unit) : M T unit :=
  match xs with
  | [] => ret tt
  | x :: xs' => body x ;; for_each xs' body
  end.

(** *** Library calls *)

(** [Path.exists()]. *)
Definition path_exists (p : Path) : M T bool :=
  fun w => (inr (match files w p with Some _ => true | None => false end), w).

(** [fitz.open(path)]. *)
Definition doc_open (p : Path) : M T SrcDoc :=
  log (EvOpen p) ;; lift (fitz_open env p).

(** [fitz.open()]: a fresh, empty document. *)
Definition doc_open_empty : M T unit :=
  log EvOpenEmpty ;;
  lift_error (fitz_open_empty env) ;;
  modify (fun w => mkWorld (files w) [] (trace w)).

(** [src.load_page(i)]. *)
Definition load_page (src : SrcDoc) (i : nat) : M T SrcPage :=
  log (EvLoadPage i) ;;
  match nth_error (src_pages src) i with
  | Some pg => ret pg
  | None => raise (ValueError "page not in document")
  end.

(** [page.get_pixmap(matrix=fitz.Matrix(a, d), colorspace=cs, alpha=alpha)]. *)
Definition page_get_pixmap (page : SrcPage) (a d : T) (cs : Colorspace)
    (alpha : bool) : M T Pixmap :=
  log (EvGetPixmap page) ;; lift (get_pixmap env page a d cs alpha).

(** [pix.get_image_data(output=..., quality=...)]. *)
Definition pix_get_image_data (pix : Pixmap) (output : string) (quality : Z)
    : M T bytes :=
  log EvGetImageData ;; lift (get_image_data env pix output quality).

(** [Image.frombytes(mode, size, data)]. *)
Definition image_frombytes (pil : Pillow) (mode : string) (size : Z * Z)
    (data : bytes) : M T PilImage :=
  log EvFrombytes ;;
  lift_error (frombytes_error pil mode size data) ;;
  ret (mkPilImage mode size data).

(** [img.save(buf, format="JPEG", quality=..., optimize=...)] followed
    by [buf.getvalue()]. *)
Definition image_save (pil : Pillow) (img : PilImage) (quality : Z)
    (optimize : bool) : M T bytes :=
  log EvImageSave ;; lift (jpeg_save pil img quality optimize).

(** [dst.new_page(width=..., height=...)]: the page is appended; its
    number is returned. *)
Definition doc_new_page (width height : T) : M T nat :=
  log EvNewPage ;;
  lift_error (new_page_error env width height) ;;
  w <- get_world ;;
  modify (fun w => mkWorld (files w)
                           (dst_pages w ++ [mkOutPage width height []])
                           (trace w)) ;;
  ret (List.length (dst_pages w)).

Fixpoint update_page (pno : nat) (f : OutPage T -> OutPage T)
    (pages : list (OutPage T)) : list (OutPage T) :=
  match pages, pno with
  | [], _ => []
  | pg :: rest, O => f pg :: rest
  | pg :: rest, S n => pg :: update_page n f rest
  end.

(** [new_page.insert_image(rect, stream=...)], on page [pno] of the
    destination. *)
Definition page_insert_image (pno : nat) (rect : Rect T) (stream : bytes)
    : M T unit :=
  log (EvInsertImage pno) ;;
  lift_error (insert_image_error env rect stream) ;;
  modify (fun w =>
    mkWorld (files w)
            (update_page pno
               (fun pg => mkOutPage (page_width pg) (page_height pg)
                                    (images pg ++ [(rect, stream)]))
               (dst_pages w))
            (trace w)).

(** [dst.save(path, deflate=True, clean=True, garbage=4)]. *)
Definition doc_save (p : Path) : M T unit :=
  log (EvSave p) ;;
  w <- get_world ;;
  lift_error (save_error env p (dst_pages w)) ;;
  modify (fun w =>
    mkWorld (fun q => if path_eqb q p then Some (SavedPdf (dst_pages w))
                      else files w q)
            (dst_pages w) (trace w)).

(** [doc.close()]. *)
Definition doc_close (h : handle) : M T unit := log (EvClose h).

(** *** [encode_pixmap_to_jpeg], app.py:28-44 *)

Definition missing_pillow_message : string :=
  "PyMuPDF get_image_data not available; install Pillow (`pip install Pillow`) for fallback.".

Definition encode_pixmap_to_jpeg (pix : Pixmap) (quality : Z) : M T bytes :=
  try_except
    (pix_get_image_data pix "jpeg" quality)
    (fun _ =>
       match Image env with
       | None => raise (RuntimeError missing_pillow_message)
       | Some pil =>
           let mode := if (colorspace_n pix =? 1)%Z then "L" else "RGB" in
           img <- image_frombytes pil mode (pix_width pix, pix_height pix)
                                  (samples pix) ;;
           image_save pil img quality true
       end).

(** *** [rasterize_pdf_to_images_pdf], app.py:47-96 *)

(** The page loop, app.py:78-89. *)
Definition rasterize_page (src : SrcDoc) (zoom : T) (quality : Z)
    (grayscale : bool) (page_w page_h : T) (i : nat) : M T unit :=
  page <- load_page src i ;;
  pix <- page_get_pixmap page zoom zoom
           (if grayscale then csGRAY else csRGB) false ;;
  img_bytes <- encode_pixmap_to_jpeg pix quality ;;
  new_page <- doc_new_page page_w page_h ;;
  let rect := fit_rect_keep_aspect (pix_width pix) (pix_height pix)
                                   page_w page_h in
  page_insert_image new_page rect img_bytes.

(** The body of the [try], app.py:66-93. *)
Definition rasterize_body (src : SrcDoc) (out_path : Path) (dpi quality : Z)
    (grayscale a4_portrait : bool) : M T Path :=
  if needs_pass src
  then raise (RuntimeError "The input PDF is password-protected.")
  else
    let '(page_w, page_h) :=
      if a4_portrait then (A4_WIDTH_PT, A4_HEIGHT_PT)
      else (A4_HEIGHT_PT, A4_WIDTH_PT) in
    let zoom := (of_int dpi / of_int 72)%py in
    for_each (seq 0 (List.length (src_pages src)))
             (rasterize_page src zoom quality grayscale page_w page_h) ;;
    doc_save out_path ;;
    ret out_path.

Definition rasterize_pdf_to_images_pdf (input_pdf : Path) (dpi quality : Z)
    (grayscale a4_portrait : bool) : M T Path :=
  found <- path_exists input_pdf ;;
  if negb found
  then raise (FileNotFoundError ("Input not found: " ++ path_str input_pdf))
  else if negb (String.eqb (string_lower (suffix input_pdf)) ".pdf")
  then raise (ValueError "Input must be a .pdf file")
  else
    out_path <- lift (with_name input_pdf (stem input_pdf ++ " (01).pdf")) ;;
    src <- doc_open input_pdf ;;
    doc_open_empty ;;
    try_finally
      (rasterize_body src out_path dpi quality grayscale a4_portrait)
      (doc_close Src ;; doc_close Dst).

(** *** Outcomes without the trace

    What the encoder returns, read off the environment alone. *)
Definition encoded (pix : Pixmap) (quality : Z) : exn + bytes :=
  match get_image_data env pix "jpeg" quality with
  | inr b => inr b
  | inl _ =>
      match Image env with
      | None => inl (RuntimeError missing_pillow_message)
      | Some pil =>
          let mode := if (colorspace_n pix =? 1)%Z then "L" else "RGB" in
          let size := (pix_width pix, pix_height pix) in
          match frombytes_error pil mode size (samples pix) with
          | Some e => inl e
          | None => jpeg_save pil (mkPilImage mode size (samples pix)) quality true
          end
      end
  end.

(** The destination page the loop builds for one source page, when
    rendering and encoding go through. *)
Definition rebuilt_page (zoom : T) (quality : Z) (grayscale : bool)
    (page_w page_h : T) (pg : SrcPage) : option (OutPage T) :=
  match get_pixmap env pg zoom zoom (if grayscale then csGRAY else csRGB) false with
  | inl _ => None
  | inr pix =>
      match encoded pix quality with
      | inl _ => None
      | inr b =>
          Some (mkOutPage page_w page_h
                  [(fit_rect_keep_aspect (pix_width pix) (pix_height pix)
                                         page_w page_h, b)])
      end
  end.
End Program.

(* ================================================================= *)
(** ** Properties of runs *)

Section RunProperties.
Context {T : Type} `{PyNum T}.

(** [w'] continues the trace of [w] with calls that close nothing. *)
Definition extends_quietly (w w' : World T) : Prop :=
  exists t, trace w' = (trace w ++ t)%list /\
            closes Src t = 0%nat /\ closes Dst t = 0%nat.

(** A computation that closes no document, on any exit. *)
Definition quiet {A} (m : M T A) : Prop :=
  forall w, extends_quietly w (snd (m w)).

(** The library calls of one page go through. *)
Definition page_goes_through (env : Env T) (zoom : T) (quality : Z)
    (grayscale : bool) (page_w page_h : T) (pg : SrcPage) : Prop :=
  rebuilt_page env zoom quality grayscale page_w page_h pg <> None.

(** Appending a page, placing an image and saving [n] pages to [out]
    go through. *)
Definition writes_go_through (env : Env T) (out : Path) (n : nat) : Prop :=
  (forall width height, new_page_error env width height = None) /\
  (forall rect stream, insert_image_error env rect stream = None) /\
  (forall pages, List.length pages = n -> save_error env out pages = None).
End RunProperties.

(* ================================================================= *)
(** ** Further vocabulary: rectangles, calls, the desktop front end *)

(** Two rational rectangles with equal coordinates. *)
Definition Rect_eq (r r' : Rect Q) : Prop :=
  (x0 r == x0 r')%Q /\ (y0 r == y0 r')%Q /\
  (x1 r == x1 r')%Q /\ (y1 r == y1 r')%Q.

(** The rectangle with the two axes exchanged. *)
Definition transpose (r : Rect Q) : Rect Q :=
  mkRect (y0 r) (x0 r) (y1 r) (x1 r).

(** A file name made of a non-empty stem followed by [.pdf] in any
    letter case. *)
Definition has_pdf_extension (n : string) : Prop :=
  exists s e, n = (s ++ e)%string /\ s <> ""%string /\
              string_lower e = ".pdf"%string.

Definition is_save (e : event) : bool :=
  match e with EvSave _ => true | _ => false end.

(** The calls [encode_pixmap_to_jpeg] can make. *)
Definition is_encoder_call (e : event) : bool :=
  match e with
  | EvGetImageData | EvFrombytes | EvImageSave => true
  | _ => false
  end.

(** The calls of one turn of the page loop. *)
Definition is_page_call (e : event) : bool :=
  match e with
  | EvLoadPage _ | EvGetPixmap _ | EvGetImageData | EvFrombytes
  | EvImageSave | EvNewPage | EvInsertImage _ => true
  | _ => false
  end.

Section MoreRunProperties.
Context {T : Type} `{PyNum T}.

(** A computation that leaves the files alone and only makes calls
    accepted by [ok], on any exit. *)
Definition traces_only {A} (ok : event -> bool) (m : M T A) : Prop :=
  forall w,
    files (snd (m w)) = files w /\
    exists t, trace (snd (m w)) = (trace w ++ t)%list /\ forallb ok t = true.
End MoreRunProperties.

(** *** The file picker, app.py:99-124

    Of the [__main__] block only [select_file] has logic of its own; the
    window, the button and the event loop are Tk's. *)

(** What [select_file] asks of Tk and [pathlib]: the string the file
    dialog returns (empty when it is cancelled) and [Path(file_path)]. *)
Record Gui : Type := mkGui {
  askopenfilename : string;
  Path_of_string : string -> Path
}.

(** [messagebox.showinfo(title, message)] and
    [messagebox.showerror(title, message)]. *)
Inductive dialog : Type :=
| showinfo (title message : string)
| showerror (title message : string).

(** [str(e)]: the message the exception was raised with. *)
Definition exn_str (e : exn) : string :=
  match e with
  | FileNotFoundError msg => msg
  | ValueError msg => msg
  | RuntimeError msg => msg
  | OtherError msg => msg
  end.

Definition newline : string := String (ascii_of_nat 10) EmptyString.

Section FrontEnd.
Context {T : Type} `{PyNum T}.
Variable env : Env T.
Variable gui : Gui.

(** [select_file()], app.py:103-115: the dialogs shown and the world
    left behind.  The call of the orchestrator takes its defaults,
    [dpi=144], [quality=60], [grayscale=False], [a4_portrait=True]. *)
Definition select_file (w : World T) : list dialog * World T :=
  let file_path := askopenfilename gui in
  if String.eqb file_path "" then ([], w)
  else
    let input_path := Path_of_string gui file_path in
    match rasterize_pdf_to_images_pdf env input_path 144 60 false true w with
    | (inr output_path, w') =>
        ([showinfo "הצלחה"
            ("הקובץ נוצר בהצלחה:" ++ newline ++ path_str output_path)], w')
    | (inl e, w') =>
        ([showerror "שגיאה" ("אירעה שגיאה:" ++ newline ++ exn_str e)], w')
    end.
End FrontEnd.

(** A file dialog that returns the path of [demo_input]. *)
Definition demo_gui : Gui :=
  mkGui "C:\docs\report.pdf" (fun _ => mkPath ["C:"; "docs"] "report.pdf").

(* ================================================================= *)
(** ** A concrete environment

    A three-page, unencrypted document whose pages render to 400 x 300
    RGB pixmaps; the JPEG bytes of a page are its content, so the pages
    can be told apart in the output. *)

Definition demo_input : Path := mkPath ["C:"; "docs"] "report.pdf".

Definition demo_doc : SrcDoc :=
  mkSrcDoc false [mkSrcPage "one"; mkSrcPage "two"; mkSrcPage "three"].

Definition demo_pixmap (pg : SrcPage) : Pixmap :=
  mkPixmap 400 300 3 (list_byte_of_string (page_content pg)).

Definition demo_env (T : Type) `{PyNum T} : Env T :=
  mkEnv (fun _ => inr demo_doc)
        None
        (fun pg _ _ _ _ => inr (demo_pixmap pg))
        (fun pix _ _ => inr (samples pix))
        None
        (fun _ _ => None)
        (fun _ _ => None)
        (fun _ _ => None).

(** The same library with a JPEG encoder that always fails and no Pillow. *)
Definition demo_env_no_jpeg (T : Type) `{PyNum T} : Env T :=
  mkEnv (fun _ => inr demo_doc)
        None
        (fun pg _ _ _ _ => inr (demo_pixmap pg))
        (fun _ _ _ => inl (OtherError "unsupported output format"))
        None
        (fun _ _ => None)
        (fun _ _ => None)
        (fun _ _ => None).

(** The same library when the empty destination document cannot be
    created. *)
Definition demo_env_no_dst (T : Type) `{PyNum T} : Env T :=
  mkEnv (fun _ => inr demo_doc)
        (Some (OtherError "cannot create document"))
        (fun pg _ _ _ _ => inr (demo_pixmap pg))
        (fun pix _ _ => inr (samples pix))
        None
        (fun _ _ => None)
        (fun _ _ => None)
        (fun _ _ => None).

(** The same library on a document that asks for a password. *)
Definition demo_env_encrypted (T : Type) `{PyNum T} : Env T :=
  mkEnv (fun _ => inr (mkSrcDoc true [mkSrcPage "one"]))
        None
        (fun pg _ _ _ _ => inr (demo_pixmap pg))
        (fun pix _ _ => inr (samples pix))
        None
        (fun _ _ => None)
        (fun _ _ => None)
        (fun _ _ => None).

(** The same library on a document without pages.  PyMuPDF's [save]
    refuses a document that has no page, with
    [ValueError("cannot save with zero pages")]. *)
Definition demo_env_no_pages (T : Type) `{PyNum T} : Env T :=
  mkEnv (fun _ => inr (mkSrcDoc false []))
        None
        (fun pg _ _ _ _ => inr (demo_pixmap pg))
        (fun pix _ _ => inr (samples pix))
        None
        (fun _ _ => None)
        (fun _ _ => None)
        (fun _ pages =>
           match pages with
           | [] => Some (ValueError "cannot save with zero pages")
           | _ :: _ => None
           end).

(** A disk holding exactly the file [p]. *)
Definition disk_with (T : Type) `{PyNum T} (p : Path) : World T :=
  mkWorld (fun q => if path_eqb q p then Some ExistingFile else None) [] [].

Arguments demo_env T {_}.
Arguments demo_env_no_jpeg T {_}.
Arguments demo_env_no_dst T {_}.
Arguments demo_env_encrypted T {_}.
Arguments demo_env_no_pages T {_}.
Arguments disk_with T {_} p.

(* ================================================================= *)
(** ** Facts about the geometry helper *)

Local Open Scope Q_scope.

#[local] Set Warnings "-inexact-float".
Lemma A4_literals_binary64 :
  (@A4_WIDTH_PT float _ = 595.2755905511812)%float /\
  (@A4_HEIGHT_PT float _ = 841.8897637795277)%float.
Proof. split; vm_compute; reflexivity. Qed.
#[local] Set Warnings "inexact-float".

Lemma Qltb_lt (a b : Q) : Qltb a b = true <-> a < b.
Proof.
  unfold Qltb. rewrite Qlt_alt. destruct (a ?= b); split; congruence.
Qed.

Lemma Qltb_ge (a b : Q) : Qltb a b = false <-> b <= a.
Proof.
  split.
  - intros Hf. apply Qnot_lt_le. intro Hlt. apply Qltb_lt in Hlt. congruence.
  - intros Hle. destruct (Qltb a b) eqn:E; [|reflexivity].
    apply Qltb_lt in E. exfalso. apply (Qlt_not_le _ _ E Hle).
Qed.

(** Python's [min] on two rationals is the library minimum, as a term. *)
Lemma py_min_Qmin (a b : Q) : py_min a b = Qmin a b.
Proof.
  unfold py_min, Qmin, GenericMinMax.gmin. cbn [nltb Q_PyNum]. unfold Qltb.
  rewrite <- (Qcompare_antisym a b).
  destruct (a ?= b); reflexivity.
Qed.

Section GeometryQ.
Variables (imgW imgH : Z) (pageW pageH : Q).
Hypothesis imgW_pos : (0 < imgW)%Z.
Hypothesis imgH_pos : (0 < imgH)%Z.
Hypothesis pageW_pos : 0 < pageW.
Hypothesis pageH_pos : 0 < pageH.

Let iw : Q := inject_Z imgW.
Let ih : Q := inject_Z imgH.
Let scale : Q := py_min (pageW / iw) (pageH / ih).

Lemma iw_pos : 0 < iw.
Proof. unfold iw. change 0 with (inject_Z 0). rewrite <- Zlt_Qlt. exact imgW_pos. Qed.

Lemma ih_pos : 0 < ih.
Proof. unfold ih. change 0 with (inject_Z 0). rewrite <- Zlt_Qlt. exact imgH_pos. Qed.

(** The chosen scale is one of the two axis ratios and is below both. *)
Lemma scale_cases :
  (scale == pageW / iw /\ pageW / iw <= pageH / ih) \/
  (scale == pageH / ih /\ pageH / ih <= pageW / iw).
Proof.
  unfold scale, py_min. cbn [nltb Q_PyNum].
  destruct (Qltb (pageH / ih) (pageW / iw)) eqn:E.
  - right. split; [reflexivity|]. apply Qltb_lt in E. apply Qlt_le_weak, E.
  - left. split; [reflexivity|]. apply Qltb_ge in E. exact E.
Qed.

Lemma mul_div_iw : iw * (pageW / iw) == pageW.
Proof. pose proof iw_pos. field. intro E. rewrite E in H. apply (Qlt_irrefl _ H). Qed.

Lemma mul_div_ih : ih * (pageH / ih) == pageH.
Proof. pose proof ih_pos. field. intro E. rewrite E in H. apply (Qlt_irrefl _ H). Qed.

Lemma scale_pos : 0 < scale.
Proof.
  pose proof iw_pos. pose proof ih_pos.
  assert (0 < pageW / iw) by (apply Qlt_shift_div_l; lra).
  assert (0 < pageH / ih) by (apply Qlt_shift_div_l; lra).
  destruct scale_cases as [[E _]|[E _]]; rewrite E; assumption.
Qed.

(** The scaled width and height: one of them is the page's, the other
    is within the page. *)
Lemma scaled_size_cases :
  (iw * scale == pageW /\ ih * scale <= pageH) \/
  (ih * scale == pageH /\ iw * scale <= pageW).
Proof.
  pose proof iw_pos as Hw. pose proof ih_pos as Hh.
  destruct scale_cases as [[E Hle]|[E Hle]]; [left|right]; rewrite E; split.
  - apply mul_div_iw.
  - rewrite <- mul_div_ih. apply Qmult_le_l; assumption.
  - apply mul_div_ih.
  - rewrite <- mul_div_iw. apply Qmult_le_l; assumption.
Qed.

Lemma scaled_width_pos : 0 < iw * scale.
Proof. apply Qmult_lt_0_compat; [apply iw_pos | apply scale_pos]. Qed.

Lemma scaled_height_pos : 0 < ih * scale.
Proof. apply Qmult_lt_0_compat; [apply ih_pos | apply scale_pos]. Qed.
End GeometryQ.

(** The four coordinates of the returned rectangle, in terms of the scaled
    width and height. *)
Lemma fit_rect_coordinates (imgW imgH : Z) (pageW pageH : Q) :
  let s := py_min (pageW / inject_Z imgW) (pageH / inject_Z imgH) in
  let w := inject_Z imgW * s in
  let h := inject_Z imgH * s in
  let r := fit_rect_keep_aspect imgW imgH pageW pageH in
  x0 r == (pageW - w) / 2 /\ y0 r == (pageH - h) / 2 /\
  x1 r == (pageW + w) / 2 /\ y1 r == (pageH + h) / 2 /\
  rect_width r == w /\ rect_height r == h.
Proof.
  cbv zeta. unfold rect_width, rect_height, fit_rect_keep_aspect.
  cbn [x0 y0 x1 y1 of_int nadd nsub nmul ndiv Q_PyNum].
  change (inject_Z 2) with 2.
  generalize (py_min (pageW / inject_Z imgW) (pageH / inject_Z imgH)); intro s.
  split; [|split; [|split; [|split; [|split]]]]; field.
Qed.

(** C1: for positive image and page dimensions, over the rationals,
    [fit_rect_keep_aspect] returns exactly the rectangle
    [(x, y, x + width, y + height)] of the specification, with
    [scale = min(pageW/imgW, pageH/imgH)], [width = imgW*scale],
    [height = imgH*scale], [x = (pageW - width)/2] and
    [y = (pageH - height)/2].  The helper is a function of its four
    arguments: it neither reads nor changes a world. *)
Theorem fit_rect_keep_aspect_formula (imgW imgH : Z) (pageW pageH : Q) :
  (0 < imgW)%Z -> (0 < imgH)%Z -> 0 < pageW -> 0 < pageH ->
  fit_rect_keep_aspect imgW imgH pageW pageH
  = fitRectKeepAspect_spec imgW imgH pageW pageH.
Proof.
  intros _ _ _ _. unfold fit_rect_keep_aspect, fitRectKeepAspect_spec.
  rewrite py_min_Qmin. reflexivity.
Qed.

Lemma fit_rect_keep_aspect_formula_witness :
  fit_rect_keep_aspect 400 200 600 800
  = fitRectKeepAspect_spec 400 200 600 800
  /\ x0 (fitRectKeepAspect_spec 400 200 600 800) == 0
  /\ y0 (fitRectKeepAspect_spec 400 200 600 800) == 250
  /\ x1 (fitRectKeepAspect_spec 400 200 600 800) == 600
  /\ y1 (fitRectKeepAspect_spec 400 200 600 800) == 550.
Proof.
  split.
  - apply (@fit_rect_keep_aspect_formula 400 200 600 800); reflexivity.
  - repeat split.
Defined.

(** The scaled size never exceeds the page and is positive. *)
Lemma scaled_size_bounds (imgW imgH : Z) (pageW pageH : Q) :
  (0 < imgW)%Z -> (0 < imgH)%Z -> 0 < pageW -> 0 < pageH ->
  let s := py_min (pageW / inject_Z imgW) (pageH / inject_Z imgH) in
  0 < inject_Z imgW * s <= pageW /\ 0 < inject_Z imgH * s <= pageH.
Proof.
  intros HW HH HpW HpH s.
  pose proof (scaled_width_pos HW HH HpW HpH) as Hw.
  pose proof (scaled_height_pos HW HH HpW HpH) as Hh.
  destruct (@scaled_size_cases imgW imgH pageW pageH HW HH) as [[E Hle]|[E Hle]];
    fold s in E, Hle, Hw, Hh; repeat split; try assumption;
    rewrite E; apply Qle_refl.
Qed.

(** X18: containment in exact arithmetic.  Over the rationals, for
    positive image and page dimensions, the rectangle returned by
    [fit_rect_keep_aspect] lies in [[0, pageW] x [0, pageH]]: [x0] and
    [y0] are at least [0], [x1] is at most [pageW] and [y1] at most
    [pageH]. *)
Theorem fit_rect_within_page (imgW imgH : Z) (pageW pageH : Q) :
  (0 < imgW)%Z -> (0 < imgH)%Z -> 0 < pageW -> 0 < pageH ->
  let r := fit_rect_keep_aspect imgW imgH pageW pageH in
  0 <= x0 r /\ 0 <= y0 r /\ x1 r <= pageW /\ y1 r <= pageH.
Proof.
  intros HW HH HpW HpH r.
  destruct (fit_rect_coordinates imgW imgH pageW pageH)
    as (E0 & E1 & E2 & E3 & _).
  fold r in E0, E1, E2, E3.
  destruct (scaled_size_bounds HW HH HpW HpH) as [[_ Hw] [_ Hh]].
  revert E0 E1 E2 E3 Hw Hh.
  generalize (inject_Z imgW * py_min (pageW / inject_Z imgW) (pageH / inject_Z imgH)).
  generalize (inject_Z imgH * py_min (pageW / inject_Z imgW) (pageH / inject_Z imgH)).
  intros h w E0 E1 E2 E3 Hw Hh.
  rewrite E0, E1, E2, E3.
  repeat split.
  - apply Qle_shift_div_l; lra.
  - apply Qle_shift_div_l; lra.
  - apply Qle_shift_div_r; lra.
  - apply Qle_shift_div_r; lra.
Qed.

Lemma fit_rect_within_page_witness :
  let r := fit_rect_keep_aspect 1050 1484 (A4_WIDTH_PT : Q) A4_HEIGHT_PT in
  0 <= x0 r /\ 0 <= y0 r /\ x1 r <= A4_WIDTH_PT /\ y1 r <= A4_HEIGHT_PT.
Proof.
  apply (@fit_rect_within_page 1050 1484 A4_WIDTH_PT A4_HEIGHT_PT);
    reflexivity.
Defined.

(** C7: the code at a failing input.  The docstring of
    [fit_rect_keep_aspect] promises a rectangle that fits the image
    entirely inside the page.  In binary64, the arithmetic the code runs
    in, a pixmap of 1050 x 1484 pixels placed on A4 portrait gets a left
    edge below [0] and a right edge beyond the page width, by one
    rounding step of [img_w * (page_w / img_w)]. *)
Lemma fit_rect_binary64_outside_page :
  let r := fit_rect_keep_aspect 1050 1484 (A4_WIDTH_PT : float) A4_HEIGHT_PT in
  PrimFloat.ltb (x0 r) 0 = true /\
  PrimFloat.leb 0 (x0 r) = false /\
  PrimFloat.ltb A4_WIDTH_PT (x1 r) = true /\
  PrimFloat.leb (x1 r) A4_WIDTH_PT = false.
Proof. vm_compute. repeat split. Qed.

(** C8: over the rationals, for positive inputs, the returned rectangle
    has the aspect ratio of the image:
    [rect.width / rect.height == imgW / imgH]. *)
Theorem fit_rect_keeps_aspect_ratio (imgW imgH : Z) (pageW pageH : Q) :
  (0 < imgW)%Z -> (0 < imgH)%Z -> 0 < pageW -> 0 < pageH ->
  let r := fit_rect_keep_aspect imgW imgH pageW pageH in
  rect_width r / rect_height r == inject_Z imgW / inject_Z imgH.
Proof.
  intros HW HH HpW HpH r.
  destruct (fit_rect_coordinates imgW imgH pageW pageH)
    as (_ & _ & _ & _ & Ew & Eh).
  fold r in Ew, Eh. rewrite Ew, Eh.
  pose proof (scale_pos HW HH HpW HpH) as Hs.
  pose proof (ih_pos HH) as Hih.
  revert Hs.
  generalize (py_min (pageW / inject_Z imgW) (pageH / inject_Z imgH)).
  intros s Hs. field. split; intro E.
  - rewrite E in Hih. apply (Qlt_irrefl _ Hih).
  - rewrite E in Hs. apply (Qlt_irrefl _ Hs).
Qed.

Lemma fit_rect_keeps_aspect_ratio_witness :
  let r := fit_rect_keep_aspect 1224 1584 (A4_WIDTH_PT : Q) A4_HEIGHT_PT in
  rect_width r / rect_height r == 1224 / 1584.
Proof.
  apply (@fit_rect_keeps_aspect_ratio 1224 1584 A4_WIDTH_PT A4_HEIGHT_PT);
    reflexivity.
Defined.

(** C10: over the rationals, for positive inputs, the returned rectangle
    fills the page on at least one axis ([rect.width == pageW] or
    [rect.height == pageH]) and is centred on both axes, hence on the
    other one. *)
Theorem fit_rect_fills_one_axis (imgW imgH : Z) (pageW pageH : Q) :
  (0 < imgW)%Z -> (0 < imgH)%Z -> 0 < pageW -> 0 < pageH ->
  let r := fit_rect_keep_aspect imgW imgH pageW pageH in
  (rect_width r == pageW \/ rect_height r == pageH) /\
  x0 r + x1 r == pageW /\ y0 r + y1 r == pageH.
Proof.
  intros HW HH HpW HpH r.
  destruct (fit_rect_coordinates imgW imgH pageW pageH)
    as (E0 & E1 & E2 & E3 & Ew & Eh).
  fold r in E0, E1, E2, E3, Ew, Eh.
  split; [|split].
  - rewrite Ew, Eh.
    destruct (@scaled_size_cases imgW imgH pageW pageH HW HH) as [[E _]|[E _]];
      [left|right]; exact E.
  - rewrite E0, E2. field.
  - rewrite E1, E3. field.
Qed.

Lemma fit_rect_fills_one_axis_witness :
  let r := fit_rect_keep_aspect 400 400 (A4_WIDTH_PT : Q) A4_HEIGHT_PT in
  (rect_width r == A4_WIDTH_PT \/ rect_height r == A4_HEIGHT_PT) /\
  x0 r + x1 r == A4_WIDTH_PT /\ y0 r + y1 r == A4_HEIGHT_PT.
Proof.
  apply (@fit_rect_fills_one_axis 400 400 A4_WIDTH_PT A4_HEIGHT_PT);
    reflexivity.
Defined.

(* ================================================================= *)
(** ** Facts about paths *)

Lemma substring_whole (s : string) : substring 0 (String.length s) s = s.
Proof. induction s as [|c s IH]; cbn; [reflexivity | now rewrite IH]. Qed.

Lemma substring_split (s : string) (i : nat) :
  (i <= String.length s)%nat ->
  (substring 0 i s ++ substring i (String.length s - i) s)%string = s.
Proof.
  revert i. induction s as [|c s IH]; intros [|i] Hi.
  - reflexivity.
  - cbn in Hi. lia.
  - cbn [substring String.length Nat.sub append]. now rewrite substring_whole.
  - cbn [substring String.length Nat.sub append]. cbn in Hi.
    rewrite IH by lia. reflexivity.
Qed.

Lemma append_empty_r (s : string) : (s ++ "")%string = s.
Proof. induction s as [|c s IH]; cbn; [reflexivity | now rewrite IH]. Qed.

Lemma rfind_dot_from_bound (s : string) (i : nat) :
  rfind_dot_from s = Some i -> (i < String.length s)%nat.
Proof.
  revert i. induction s as [|c s IH]; intros i; cbn; [discriminate|].
  destruct (rfind_dot_from s) as [j|].
  - intros [= <-]. specialize (IH j eq_refl). lia.
  - destruct (Ascii.eqb c "."); [intros [= <-]; lia | discriminate].
Qed.

(** The stem and the suffix cut the name in two. *)
Lemma stem_suffix (p : Path) : (stem p ++ suffix p)%string = name p.
Proof.
  unfold stem, suffix, rfind_dot.
  destruct (rfind_dot_from (name p)) as [i|] eqn:E.
  - apply rfind_dot_from_bound in E.
    destruct ((0 <? Z.of_nat i) && _)%Z.
    + rewrite Nat2Z.id. apply substring_split. lia.
    + apply append_empty_r.
  - cbn. apply append_empty_r.
Qed.

Lemma suffix_empty_name (p : Path) : name p = ""%string -> suffix p = ""%string.
Proof. unfold suffix. intros ->. reflexivity. Qed.

Lemma pdf_suffix_has_name (p : Path) :
  string_lower (suffix p) = ".pdf"%string -> String.eqb (name p) "" = false.
Proof.
  intros Hs. destruct (String.eqb_spec (name p) "") as [E|E]; [|reflexivity].
  rewrite (suffix_empty_name p E) in Hs. discriminate.
Qed.

Lemma rfind_dot_from_app (s t : string) (j : nat) :
  rfind_dot_from t = Some j ->
  rfind_dot_from (s ++ t) = Some (String.length s + j)%nat.
Proof.
  intros Ht. induction s as [|c s IH]; cbn; [exact Ht|].
  rewrite IH. reflexivity.
Qed.

Lemma substring_app_skip (s t : string) (j m : nat) :
  substring (String.length s + j) m (s ++ t) = substring j m t.
Proof. induction s as [|c s IH]; cbn; [reflexivity | exact IH]. Qed.

Lemma length_append (s t : string) :
  String.length (s ++ t) = (String.length s + String.length t)%nat.
Proof. induction s as [|c s IH]; cbn; [reflexivity | now rewrite IH]. Qed.

(** The suffix of a name that ends in [" (01).pdf"] is [".pdf"]. *)
Lemma suffix_of_output_name (dir : list string) (s : string) :
  suffix (mkPath dir (s ++ " (01).pdf")) = ".pdf"%string.
Proof.
  unfold suffix, rfind_dot. cbn [name].
  rewrite (rfind_dot_from_app s " (01).pdf" (j := 5) eq_refl).
  rewrite length_append. cbn [String.length].
  replace ((0 <? Z.of_nat (String.length s + 5)) &&
           (Z.of_nat (String.length s + 5) <? Z.of_nat (String.length s + 9) - 1))%Z
    with true by (symmetry; apply andb_true_intro; split; apply Z.ltb_lt; lia).
  rewrite Nat2Z.id.
  replace (String.length s + 9 - (String.length s + 5))%nat with 4%nat by lia.
  rewrite substring_app_skip. reflexivity.
Qed.

Lemma path_eqb_refl (p : Path) : path_eqb p p = true.
Proof.
  unfold path_eqb. destruct (list_eq_dec string_dec (parent p) (parent p));
    [|congruence].
  apply String.eqb_refl.
Qed.

(* ================================================================= *)
(** ** Facts about the pipeline *)

Section PipelineFacts.
Context {T : Type} `{PyNum T}.
Variable env : Env T.
Local Open Scope pipeline_scope.

Lemma bind_inr_inv {A B} (m : M T A) (k : A -> M T B) w b w' :
  bind m k w = (inr b, w') ->
  exists a w1, m w = (inr a, w1) /\ k a w1 = (inr b, w').
Proof.
  unfold bind. destruct (m w) as [[e|a] w1]; [discriminate|].
  intros E. exists a, w1. split; [reflexivity | exact E].
Qed.

Lemma try_finally_inr_inv {A} (body : M T A) (cleanup : M T unit) w a w' :
  try_finally body cleanup w = (inr a, w') ->
  exists w1, body w = (inr a, w1).
Proof.
  unfold try_finally. destruct (body w) as [r w1].
  destruct (cleanup w1) as [[e|[]] w2]; [discriminate|].
  intros [= -> _]. exists w1. reflexivity.
Qed.

(** Once both checks pass, the run is the two opens followed by the
    protected body, with the output path already fixed. *)
Lemma rasterize_after_checks input dpi quality grayscale a4_portrait w :
  files w input <> None ->
  string_lower (suffix input) = ".pdf"%string ->
  rasterize_pdf_to_images_pdf env input dpi quality grayscale a4_portrait w
  = (src <- doc_open env input ;;
     doc_open_empty env ;;
     try_finally
       (rasterize_body env src
          (mkPath (parent input) (stem input ++ " (01).pdf"))
          dpi quality grayscale a4_portrait)
       (doc_close Src ;; doc_close Dst)) w.
Proof.
  intros Hex Hsuf.
  unfold rasterize_pdf_to_images_pdf at 1, path_exists, with_name.
  unfold bind at 1.
  destruct (files w input) as [f|]; [|congruence].
  cbn [negb]. rewrite Hsuf. cbn [String.eqb Ascii.eqb negb Bool.eqb].
  rewrite (pdf_suffix_has_name input Hsuf).
  reflexivity.
Qed.

Lemma rasterize_body_returns src out dpi quality grayscale a4_portrait w p w' :
  rasterize_body env src out dpi quality grayscale a4_portrait w = (inr p, w') ->
  p = out.
Proof.
  unfold rasterize_body. destruct (needs_pass src); [discriminate|].
  destruct a4_portrait; intros E;
    apply bind_inr_inv in E; destruct E as (_ & w1 & _ & E);
    apply bind_inr_inv in E; destruct E as (_ & w2 & _ & E);
    unfold ret in E; congruence.
Qed.
End PipelineFacts.

(** C4: a path that does not exist is refused with [FileNotFoundError],
    whatever its extension (the existence check comes first); a path that
    exists but whose suffix, lower-cased, is not [.pdf] is refused with
    [ValueError].  In both cases the world is left as it was: no library
    call was made, so no document was opened. *)
Theorem rasterize_rejects_bad_input {T : Type} `{PyNum T} (env : Env T)
    (input : Path) (dpi quality : Z) (grayscale a4_portrait : bool)
    (w : World T) :
  (files w input = None ->
   rasterize_pdf_to_images_pdf env input dpi quality grayscale a4_portrait w
   = (inl (FileNotFoundError ("Input not found: " ++ path_str input)), w)) /\
  (files w input <> None ->
   string_lower (suffix input) <> ".pdf"%string ->
   rasterize_pdf_to_images_pdf env input dpi quality grayscale a4_portrait w
   = (inl (ValueError "Input must be a .pdf file"), w)).
Proof.
  split.
  - intros Hnone. unfold rasterize_pdf_to_images_pdf, path_exists, bind.
    rewrite Hnone. reflexivity.
  - intros Hex Hsuf. unfold rasterize_pdf_to_images_pdf, path_exists, bind.
    destruct (files w input); [|congruence]. cbn [negb].
    destruct (String.eqb_spec (string_lower (suffix input)) ".pdf");
      [congruence | reflexivity].
Qed.

Lemma rasterize_rejects_bad_input_witness :
  let missing := mkPath ["C:"; "docs"] "missing.txt" in
  let notes := mkPath ["C:"; "docs"] "notes.txt" in
  rasterize_pdf_to_images_pdf (demo_env Q) missing 144 60 false true
    (disk_with Q notes)
  = (inl (FileNotFoundError "Input not found: C:\docs\missing.txt"),
     disk_with Q notes) /\
  rasterize_pdf_to_images_pdf (demo_env Q) notes 144 60 false true
    (disk_with Q notes)
  = (inl (ValueError "Input must be a .pdf file"), disk_with Q notes).
Proof.
  split.
  - apply (proj1 (rasterize_rejects_bad_input (demo_env Q)
                    (mkPath ["C:"; "docs"] "missing.txt") 144 60 false true
                    (disk_with Q (mkPath ["C:"; "docs"] "notes.txt")))).
    reflexivity.
  - apply (proj2 (rasterize_rejects_bad_input (demo_env Q)
                    (mkPath ["C:"; "docs"] "notes.txt") 144 60 false true
                    (disk_with Q (mkPath ["C:"; "docs"] "notes.txt")))).
    + discriminate.
    + discriminate.
Defined.

(** C6 (amended): for an input path accepted by the preconditions, the
    output path is in the directory of the input and its name is the
    input's stem, then [" (01)"], then the literal extension [.pdf], which
    is the input's extension lower-cased; the name of the input is its
    stem followed by its extension, so the suffix is inserted just before
    the extension.  When the call returns a path, it is this one. *)
Theorem output_path_inserts_suffix {T : Type} `{PyNum T} (env : Env T)
    (input : Path) (dpi quality : Z) (grayscale a4_portrait : bool)
    (w : World T) :
  files w input <> None ->
  string_lower (suffix input) = ".pdf"%string ->
  let out := mkPath (parent input)
                    (stem input ++ " (01)" ++ string_lower (suffix input)) in
  name input = (stem input ++ suffix input)%string /\
  with_name input (stem input ++ " (01).pdf") = inr out /\
  parent out = parent input /\
  suffix out = string_lower (suffix input) /\
  forall p w',
    rasterize_pdf_to_images_pdf env input dpi quality grayscale a4_portrait w
    = (inr p, w') ->
    p = out.
Proof.
  intros Hex Hsuf out. unfold out. rewrite Hsuf.
  change (" (01)" ++ ".pdf")%string with " (01).pdf"%string.
  split; [symmetry; apply stem_suffix|].
  split; [unfold with_name; now rewrite (pdf_suffix_has_name input Hsuf)|].
  split; [reflexivity|].
  split; [apply suffix_of_output_name|].
  intros p w' E. rewrite rasterize_after_checks in E by assumption.
  apply bind_inr_inv in E. destruct E as (src & w1 & _ & E).
  apply bind_inr_inv in E. destruct E as (_ & w2 & _ & E).
  apply try_finally_inr_inv in E. destruct E as (w3 & E).
  apply rasterize_body_returns in E. exact E.
Qed.

Lemma output_path_inserts_suffix_witness :
  let out := mkPath ["C:"; "docs"] "report (01).pdf" in
  name demo_input = "report.pdf"%string /\
  with_name demo_input (stem demo_input ++ " (01).pdf") = inr out /\
  parent out = parent demo_input /\
  suffix out = ".pdf"%string /\
  forall p w',
    rasterize_pdf_to_images_pdf (demo_env Q) demo_input 144 60 false true
      (disk_with Q demo_input) = (inr p, w') ->
    p = out.
Proof.
  apply (@output_path_inserts_suffix Q _ (demo_env Q) demo_input 144 60
           false true (disk_with Q demo_input)).
  - discriminate.
  - reflexivity.
Defined.

(** C6, as stated, fails on an upper-case extension: [Scan.PDF] passes
    the preconditions and the call returns [Scan (01).pdf], whose
    extension is not the input's [.PDF]. *)
Lemma output_path_changes_extension_case :
  let input := mkPath ["C:"; "docs"] "Scan.PDF" in
  let out := mkPath ["C:"; "docs"] "Scan (01).pdf" in
  files (disk_with Q input) input <> None /\
  string_lower (suffix input) = ".pdf"%string /\
  fst (rasterize_pdf_to_images_pdf (demo_env Q) input 144 60 false true
         (disk_with Q input)) = inr out /\
  suffix input = ".PDF"%string /\
  suffix out = ".pdf"%string /\
  suffix out <> suffix input /\
  name out <> (stem input ++ " (01)" ++ suffix input)%string.
Proof.
  cbv zeta. split; [discriminate|]. split; [reflexivity|].
  split; [vm_compute; reflexivity|]. split; [reflexivity|].
  split; [reflexivity|]. split; discriminate.
Qed.

(** C3: when the document at an accepted path requires a password, the
    call raises [RuntimeError("The input PDF is password-protected.")]
    (the Encrypted kind) right after the two opens: the only further
    library calls are the two closes, so no page is rendered and nothing
    is saved, and the files on disk are those from before the call.
    Should the empty destination document fail to be created, the call
    stops there with that exception, again with the files untouched. *)
Theorem rasterize_rejects_encrypted {T : Type} `{PyNum T} (env : Env T)
    (input : Path) (dpi quality : Z) (grayscale a4_portrait : bool)
    (w : World T) (d : SrcDoc) :
  files w input <> None ->
  string_lower (suffix input) = ".pdf"%string ->
  fitz_open env input = inr d ->
  needs_pass d = true ->
  rasterize_pdf_to_images_pdf env input dpi quality grayscale a4_portrait w
  = match fitz_open_empty env with
    | None =>
        (inl (RuntimeError "The input PDF is password-protected."),
         mkWorld (files w) []
                 (trace w ++ [EvOpen input; EvOpenEmpty; EvClose Src; EvClose Dst]))
    | Some e =>
        (inl e,
         mkWorld (files w) (dst_pages w) (trace w ++ [EvOpen input; EvOpenEmpty]))
    end.
Proof.
  intros Hex Hsuf Hopen Hpass.
  rewrite rasterize_after_checks by assumption.
  unfold doc_open, doc_open_empty, rasterize_body, try_finally, doc_close,
    bind, log, lift, lift_error, modify, raise.
  cbn [files dst_pages trace]. rewrite Hopen.
  destruct (fitz_open_empty env) as [e|].
  - rewrite <- app_assoc. reflexivity.
  - rewrite Hpass. cbn [files dst_pages trace].
    rewrite <- !app_assoc. reflexivity.
Qed.

Lemma rasterize_rejects_encrypted_witness :
  rasterize_pdf_to_images_pdf (demo_env_encrypted Q) demo_input 144 60 false
    true (disk_with Q demo_input)
  = (inl (RuntimeError "The input PDF is password-protected."),
     mkWorld (files (disk_with Q demo_input)) []
             [EvOpen demo_input; EvOpenEmpty; EvClose Src; EvClose Dst]).
Proof.
  apply (@rasterize_rejects_encrypted Q _ (demo_env_encrypted Q) demo_input
           144 60 false true (disk_with Q demo_input)
           (mkSrcDoc true [mkSrcPage "one"])).
  - discriminate.
  - reflexivity.
  - reflexivity.
  - reflexivity.
Defined.

(** C9: when [get_image_data] raises and Pillow was not imported
    ([Image is None]), [encode_pixmap_to_jpeg] raises a [RuntimeError]
    whose message names Pillow; the only library call made is
    [get_image_data], so neither [Image.frombytes] nor [img.save] is
    attempted. *)
Theorem encode_without_pillow_fails {T : Type} `{PyNum T} (env : Env T)
    (pix : Pixmap) (quality : Z) (w : World T) (e : exn) :
  get_image_data env pix "jpeg" quality = inl e ->
  Image env = None ->
  encode_pixmap_to_jpeg env pix quality w
  = (inl (RuntimeError missing_pillow_message),
     mkWorld (files w) (dst_pages w) (trace w ++ [EvGetImageData])) /\
  filter is_pillow (trace (snd (encode_pixmap_to_jpeg env pix quality w)))
  = filter is_pillow (trace w) /\
  index 0 "Pillow" missing_pillow_message = Some 46%nat.
Proof.
  intros Hprimary Hpil.
  assert (E : encode_pixmap_to_jpeg env pix quality w
              = (inl (RuntimeError missing_pillow_message),
                 mkWorld (files w) (dst_pages w) (trace w ++ [EvGetImageData]))).
  { unfold encode_pixmap_to_jpeg, try_except, pix_get_image_data, bind, log, lift.
    rewrite Hprimary, Hpil. reflexivity. }
  split; [exact E|]. split; [|reflexivity].
  rewrite E. cbn [snd trace]. rewrite filter_app. cbn. apply app_nil_r.
Qed.

Lemma encode_without_pillow_fails_witness :
  encode_pixmap_to_jpeg (demo_env_no_jpeg Q) (demo_pixmap (mkSrcPage "one")) 60
    (disk_with Q demo_input)
  = (inl (RuntimeError missing_pillow_message),
     mkWorld (files (disk_with Q demo_input)) [] [EvGetImageData]) /\
  filter is_pillow
    (trace (snd (encode_pixmap_to_jpeg (demo_env_no_jpeg Q)
                   (demo_pixmap (mkSrcPage "one")) 60 (disk_with Q demo_input))))
  = [] /\
  index 0 "Pillow" missing_pillow_message = Some 46%nat.
Proof.
  apply (@encode_without_pillow_fails Q _ (demo_env_no_jpeg Q)
           (demo_pixmap (mkSrcPage "one")) 60 (disk_with Q demo_input)
           (OtherError "unsupported output format")).
  - reflexivity.
  - reflexivity.
Defined.

(* ================================================================= *)
(** ** Closing the documents *)

Local Open Scope list_scope.

Lemma closes_app (h : handle) (t u : list event) :
  closes h (t ++ u) = (closes h t + closes h u)%nat.
Proof. unfold closes. now rewrite filter_app, length_app. Qed.

Section Quiet.
Context {T : Type} `{PyNum T}.
Variable env : Env T.
Local Open Scope pipeline_scope.

Lemma extends_quietly_refl (w : World T) : extends_quietly w w.
Proof. exists []. now rewrite app_nil_r. Qed.

Lemma extends_quietly_trans (w1 w2 w3 : World T) :
  extends_quietly w1 w2 -> extends_quietly w2 w3 -> extends_quietly w1 w3.
Proof.
  intros (t & Et & Hs & Hd) (u & Eu & Hs' & Hd').
  exists (t ++ u). rewrite Eu, Et, app_assoc, !closes_app, Hs, Hd, Hs', Hd'.
  repeat split.
Qed.

Lemma quiet_ret {A} (a : A) : quiet (ret (T := T) a).
Proof. intros w. apply extends_quietly_refl. Qed.

Lemma quiet_raise {A} (e : exn) : quiet (raise (T := T) (A := A) e).
Proof. intros w. apply extends_quietly_refl. Qed.

Lemma quiet_lift {A} (r : exn + A) : quiet (lift (T := T) r).
Proof. intros w. apply extends_quietly_refl. Qed.

Lemma quiet_lift_error (r : option exn) : quiet (lift_error (T := T) r).
Proof. intros w. unfold lift_error. destruct r; apply extends_quietly_refl. Qed.

Lemma quiet_get_world : quiet (get_world (T := T)).
Proof. intros w. apply extends_quietly_refl. Qed.

Lemma quiet_modify (f : World T -> World T) :
  (forall w, trace (f w) = trace w) -> quiet (modify f).
Proof. intros Hf w. exists []. cbn. now rewrite Hf, app_nil_r. Qed.

Lemma quiet_log (e : event) :
  is_close Src e = false -> is_close Dst e = false -> quiet (log (T := T) e).
Proof.
  intros Hs Hd w. exists [e]. unfold closes. cbn. rewrite Hs, Hd. repeat split.
Qed.

Lemma quiet_bind {A B} (m : M T A) (k : A -> M T B) :
  quiet m -> (forall a, quiet (k a)) -> quiet (bind m k).
Proof.
  intros Hm Hk w. unfold bind. specialize (Hm w).
  destruct (m w) as [[e|a] w1]; cbn [snd] in *; [exact Hm|].
  eapply extends_quietly_trans; [exact Hm | apply Hk].
Qed.

Lemma quiet_try_except {A} (body : M T A) (handler : exn -> M T A) :
  quiet body -> (forall e, quiet (handler e)) -> quiet (try_except body handler).
Proof.
  intros Hb Hh w. unfold try_except. specialize (Hb w).
  destruct (body w) as [[e|a] w1]; cbn [snd] in *; [|exact Hb].
  eapply extends_quietly_trans; [exact Hb | apply Hh].
Qed.

Lemma quiet_for_each {A} (xs : list A) (body : A -> M T unit) :
  (forall x, quiet (body x)) -> quiet (for_each xs body).
Proof.
  intros Hb. induction xs as [|x xs IH]; cbn [for_each].
  - apply quiet_ret.
  - apply quiet_bind; [apply Hb | intros _; exact IH].
Qed.

Ltac quiet_step :=
  first
    [ apply quiet_bind; [|intro]
    | apply quiet_ret | apply quiet_raise | apply quiet_lift
    | apply quiet_lift_error | apply quiet_get_world
    | apply quiet_modify; intro; reflexivity
    | apply quiet_log; reflexivity ].

Lemma quiet_encode (pix : Pixmap) (quality : Z) :
  quiet (encode_pixmap_to_jpeg env pix quality).
Proof.
  unfold encode_pixmap_to_jpeg. apply quiet_try_except.
  - unfold pix_get_image_data. repeat quiet_step.
  - intros _. destruct (Image env) as [pil|]; [|apply quiet_raise].
    unfold image_frombytes, image_save. repeat quiet_step.
Qed.

Lemma quiet_rasterize_page src zoom quality grayscale page_w page_h i :
  quiet (rasterize_page env src zoom quality grayscale page_w page_h i).
Proof.
  unfold rasterize_page. apply quiet_bind.
  - unfold load_page. apply quiet_bind; [repeat quiet_step|]. intros _.
    destruct (nth_error (src_pages src) i); quiet_step.
  - intros page. apply quiet_bind;
      [unfold page_get_pixmap; repeat quiet_step|].
    intros pix. apply quiet_bind; [apply quiet_encode|].
    intros img_bytes. unfold doc_new_page, page_insert_image.
    repeat quiet_step.
Qed.

Lemma quiet_rasterize_body src out dpi quality grayscale a4_portrait :
  quiet (rasterize_body env src out dpi quality grayscale a4_portrait).
Proof.
  unfold rasterize_body. destruct (needs_pass src); [apply quiet_raise|].
  destruct a4_portrait;
    (apply quiet_bind;
     [apply quiet_for_each; intro; apply quiet_rasterize_page|]);
    intros _; unfold doc_save; repeat quiet_step.
Qed.

(** A quiet body under [finally: src.close(); dst.close()] closes each
    document once, on whichever exit. *)
Lemma try_finally_closes_once {A} (body : M T A) (w : World T) :
  quiet body ->
  exists t,
    trace (snd (try_finally body (doc_close Src ;; doc_close Dst) w))
    = (trace w ++ t)%list /\
    closes Src t = 1%nat /\ closes Dst t = 1%nat.
Proof.
  intros Hq. destruct (Hq w) as (t & Et & Hs & Hd).
  exists (t ++ [EvClose Src; EvClose Dst]).
  unfold try_finally. destruct (body w) as [r w1]. cbn [snd] in Et.
  unfold doc_close, bind, log. cbn [snd trace].
  rewrite Et, !closes_app, Hs, Hd, <- !app_assoc. repeat split.
Qed.
End Quiet.

(** C5 (amended): once the preconditions have passed and both documents
    have been opened, every exit of [rasterize_pdf_to_images_pdf] (a
    returned path, the password error, or any exception of a library
    call in the body) leaves a trace in which the source and the
    destination are each closed exactly once. *)
Theorem documents_closed_once {T : Type} `{PyNum T} (env : Env T)
    (input : Path) (dpi quality : Z) (grayscale a4_portrait : bool)
    (w : World T) (d : SrcDoc) :
  files w input <> None ->
  string_lower (suffix input) = ".pdf"%string ->
  fitz_open env input = inr d ->
  fitz_open_empty env = None ->
  exists t,
    trace (snd (rasterize_pdf_to_images_pdf env input dpi quality grayscale
                  a4_portrait w))
    = trace w ++ t /\
    closes Src t = 1%nat /\ closes Dst t = 1%nat.
Proof.
  intros Hex Hsuf Hopen Hdst.
  rewrite rasterize_after_checks by assumption.
  unfold doc_open, doc_open_empty, bind at 1 2 3 4 5, log, lift, lift_error, modify.
  rewrite Hopen, Hdst. cbn [files dst_pages trace].
  match goal with
  | |- context [try_finally ?body _ ?w2] =>
      destruct (try_finally_closes_once (body := body) w2
                  (quiet_rasterize_body env _ _ _ _ _ _))
        as (t & Et & Hs & Hd)
  end.
  exists ([EvOpen input; EvOpenEmpty] ++ t).
  rewrite Et. cbn [trace]. rewrite !closes_app, Hs, Hd, <- !app_assoc.
  repeat split.
Qed.

Lemma documents_closed_once_witness :
  exists t,
    trace (snd (rasterize_pdf_to_images_pdf (demo_env_no_jpeg Q) demo_input
                  144 60 false true (disk_with Q demo_input)))
    = trace (disk_with Q demo_input) ++ t /\
    closes Src t = 1%nat /\ closes Dst t = 1%nat.
Proof.
  apply (@documents_closed_once Q _ (demo_env_no_jpeg Q) demo_input 144 60
           false true (disk_with Q demo_input) demo_doc).
  - discriminate.
  - reflexivity.
  - reflexivity.
  - reflexivity.
Defined.

(** C5, as stated, fails when the destination cannot be opened: the
    preconditions pass, the source is opened, the call exits with the
    exception of [fitz.open()], and no document is closed. *)
Lemma source_not_closed_when_destination_fails :
  let run := rasterize_pdf_to_images_pdf (demo_env_no_dst Q) demo_input
               144 60 false true (disk_with Q demo_input) in
  files (disk_with Q demo_input) demo_input <> None /\
  string_lower (suffix demo_input) = ".pdf"%string /\
  fst run = inl (OtherError "cannot create document") /\
  trace (snd run) = [EvOpen demo_input; EvOpenEmpty] /\
  closes Src (trace (snd run)) = 0%nat /\
  closes Dst (trace (snd run)) = 0%nat.
Proof.
  cbv zeta. split; [discriminate|]. repeat split.
Qed.

(* ================================================================= *)
(** ** Page by page *)

Section Pages.
Context {T : Type} `{PyNum T}.
Variable env : Env T.
Local Open Scope pipeline_scope.

(** The encoder returns what [encoded] says and touches neither the
    files nor the destination. *)
Lemma encode_run (pix : Pixmap) (quality : Z) (w : World T) :
  exists t,
    encode_pixmap_to_jpeg env pix quality w
    = (encoded env pix quality,
       mkWorld (files w) (dst_pages w) (trace w ++ t)).
Proof.
  unfold encode_pixmap_to_jpeg, encoded, try_except, pix_get_image_data,
    image_frombytes, image_save, bind, log, lift, lift_error, ret, raise.
  cbn [files dst_pages trace].
  destruct (get_image_data env pix "jpeg" quality) as [e|b].
  - destruct (Image env) as [pil|].
    + destruct (frombytes_error pil _ _ _) as [e'|]; cbn [files dst_pages trace].
      * exists [EvGetImageData; EvFrombytes]. now rewrite <- app_assoc.
      * exists [EvGetImageData; EvFrombytes; EvImageSave].
        now rewrite <- !app_assoc.
    + exists [EvGetImageData]. reflexivity.
  - exists [EvGetImageData]. reflexivity.
Qed.

Lemma update_page_last (f : OutPage T -> OutPage T) (l : list (OutPage T))
    (p : OutPage T) :
  update_page (List.length l) f (l ++ [p]) = l ++ [f p].
Proof. induction l as [|q l IH]; cbn; [reflexivity | now rewrite IH]. Qed.

Variables (src : SrcDoc) (zoom : T) (quality : Z) (grayscale : bool).
Variables (page_w page_h : T).
Hypothesis new_page_ok : forall width height, new_page_error env width height = None.
Hypothesis insert_ok : forall rect stream, insert_image_error env rect stream = None.

(** One turn of the loop appends the rebuilt page. *)
Lemma rasterize_page_run (i : nat) (pg : SrcPage) (op : OutPage T)
    (w : World T) :
  nth_error (src_pages src) i = Some pg ->
  rebuilt_page env zoom quality grayscale page_w page_h pg = Some op ->
  exists t,
    rasterize_page env src zoom quality grayscale page_w page_h i w
    = (inr tt, mkWorld (files w) (dst_pages w ++ [op]) (trace w ++ t)).
Proof.
  intros Hnth Hre. unfold rebuilt_page in Hre.
  unfold rasterize_page, load_page, page_get_pixmap.
  unfold bind at 1 2 3 4. unfold log at 1 2, lift at 1, ret at 1.
  rewrite Hnth. cbn [files dst_pages trace].
  destruct (get_pixmap env pg zoom zoom _ false) as [e|pix]; [discriminate|].
  unfold bind at 1.
  match goal with
  | |- context [encode_pixmap_to_jpeg env pix quality ?w1] =>
      destruct (encode_run pix quality w1) as (t & Et); rewrite Et
  end.
  destruct (encoded env pix quality) as [e|b]; [discriminate|].
  injection Hre as <-.
  unfold doc_new_page, page_insert_image, bind, log, lift_error, get_world,
    modify, ret.
  cbn [files dst_pages trace]. rewrite new_page_ok, insert_ok.
  cbn [files dst_pages trace]. rewrite update_page_last.
  cbn [page_width page_height images app].
  eexists. rewrite <- !app_assoc. reflexivity.
Qed.

(** The loop over the remaining pages appends their rebuilt pages, in
    order. *)
Lemma page_loop_run (rest : list SrcPage) :
  forall (done : list SrcPage) (w : World T),
    src_pages src = done ++ rest ->
    Forall (page_goes_through env zoom quality grayscale page_w page_h) rest ->
    exists ops t,
      for_each (seq (List.length done) (List.length rest))
               (rasterize_page env src zoom quality grayscale page_w page_h) w
      = (inr tt, mkWorld (files w) (dst_pages w ++ ops) (trace w ++ t)) /\
      Forall2 (fun pg op =>
                 rebuilt_page env zoom quality grayscale page_w page_h pg
                 = Some op) rest ops.
Proof.
  induction rest as [|pg rest IH]; intros done w Hsplit Hall.
  - exists [], []. cbn. rewrite !app_nil_r. split; [|constructor].
    destruct w; reflexivity.
  - inversion Hall as [|? ? Hpg Hrest]; subst.
    unfold page_goes_through in Hpg.
    destruct (rebuilt_page env zoom quality grayscale page_w page_h pg)
      as [op|] eqn:Hop; [|congruence].
    assert (Hnth : nth_error (src_pages src) (List.length done) = Some pg).
    { rewrite Hsplit, nth_error_app2, Nat.sub_diag by lia. reflexivity. }
    destruct (rasterize_page_run (List.length done) w Hnth Hop) as (t & Et).
    cbn [List.length seq for_each]. unfold bind. rewrite Et.
    destruct (IH (done ++ [pg])
                 (mkWorld (files w) (dst_pages w ++ [op]) (trace w ++ t)))
      as (ops & u & Eu & Hops).
    { rewrite Hsplit, <- app_assoc. reflexivity. }
    { exact Hrest. }
    rewrite length_app, Nat.add_1_r in Eu. rewrite Eu.
    exists (op :: ops), (t ++ u). cbn [files dst_pages trace].
    rewrite <- !app_assoc. split; [reflexivity|].
    constructor; assumption.
Qed.
End Pages.

(** When the library calls go through, the call returns: for an
    existing, [.pdf]-suffixed, unencrypted input whose pages render and
    encode and whose destination can be written, the result is the
    output path and the document saved there has as many pages as the
    input; its page at each index is the page rebuilt from the source
    page at the same index. *)
Theorem rasterize_preserves_pages {T : Type} `{PyNum T} (env : Env T)
    (input : Path) (dpi quality : Z) (grayscale a4_portrait : bool)
    (w : World T) (d : SrcDoc) :
  let page_w : T := if a4_portrait then A4_WIDTH_PT else A4_HEIGHT_PT in
  let page_h : T := if a4_portrait then A4_HEIGHT_PT else A4_WIDTH_PT in
  let zoom : T := ndiv (of_int dpi) (of_int 72) in
  let out := mkPath (parent input) (stem input ++ " (01).pdf") in
  files w input <> None ->
  string_lower (suffix input) = ".pdf"%string ->
  fitz_open env input = inr d ->
  needs_pass d = false ->
  fitz_open_empty env = None ->
  Forall (page_goes_through env zoom quality grayscale page_w page_h)
         (src_pages d) ->
  writes_go_through env out (List.length (src_pages d)) ->
  exists pages w',
    rasterize_pdf_to_images_pdf env input dpi quality grayscale a4_portrait w
    = (inr out, w') /\
    files w' out = Some (SavedPdf pages) /\
    List.length pages = List.length (src_pages d) /\
    Forall2 (fun pg op =>
               rebuilt_page env zoom quality grayscale page_w page_h pg
               = Some op) (src_pages d) pages.
Proof.
  intros page_w page_h zoom out Hex Hsuf Hopen Hpass Hdst Hpages
         (Hnew & Hins & Hsave).
  rewrite rasterize_after_checks by assumption.
  unfold doc_open, doc_open_empty, bind at 1 2 3 4 5, log, lift, lift_error, modify.
  rewrite Hopen, Hdst. cbn [files dst_pages trace].
  unfold try_finally, rasterize_body. rewrite Hpass.
  set (w2 := mkWorld (files w) [] ((trace w ++ [EvOpen input]) ++ [EvOpenEmpty])).
  destruct (@page_loop_run T _ env d zoom quality grayscale page_w page_h
              Hnew Hins (src_pages d) [] w2 eq_refl Hpages)
    as (ops & t & Et & Hops).
  subst w2. cbn [List.length app files dst_pages trace] in Et.
  assert (Hlen : List.length ops = List.length (src_pages d))
    by (symmetry; apply (Forall2_length Hops)).
  exists ops.
  subst page_w page_h zoom out.
  destruct a4_portrait;
    unfold bind at 1; rewrite Et;
    unfold doc_save, doc_close, bind, log, get_world, lift_error, modify, ret;
    cbn [files dst_pages trace app]; rewrite (Hsave ops Hlen);
    cbn [files dst_pages trace];
    (eexists; split; [reflexivity|]); cbn [files];
    rewrite path_eqb_refl; repeat split; assumption.
Qed.

(* ================================================================= *)
(** ** More about the geometry helper *)

Lemma ratio_le_cross (a b c d : Q) :
  0 < c -> 0 < d -> (a / c <= b / d <-> d * a <= c * b).
Proof.
  intros Hc Hd. split; intros Hle.
  - assert (E1 : d * a == (a / c) * (c * d)) by (field; lra).
    assert (E2 : c * b == (b / d) * (c * d)) by (field; lra).
    rewrite E1, E2. apply Qmult_le_compat_r; [exact Hle|].
    apply Qlt_le_weak, Qmult_lt_0_compat; assumption.
  - apply Qle_shift_div_r; [exact Hc|].
    assert (E : b / d * c == (c * b) / d) by (field; lra).
    rewrite E. apply Qle_shift_div_l; [exact Hd|]. lra.
Qed.

(** The scaled width is the smaller of the page width and the width the
    image would have at full page height; likewise for the height. *)
Lemma scaled_width_min (imgW imgH : Z) (pageW pageH : Q) :
  (0 < imgW)%Z -> (0 < imgH)%Z ->
  inject_Z imgW * py_min (pageW / inject_Z imgW) (pageH / inject_Z imgH)
  == Qmin pageW (inject_Z imgW * pageH / inject_Z imgH).
Proof.
  intros HW HH.
  pose proof (iw_pos HW) as Hiw. pose proof (ih_pos HH) as Hih.
  destruct (@scale_cases imgW imgH pageW pageH) as [[E Hle]|[E Hle]]; rewrite E.
  - rewrite Q.min_l.
    + field. lra.
    + first [ apply (proj1 (@ratio_le_cross _ _ _ _ Hiw Hih)) in Hle
            | apply (proj1 (@ratio_le_cross _ _ _ _ Hih Hiw)) in Hle ].
      apply Qle_shift_div_l; [exact Hih|]. lra.
  - rewrite Q.min_r.
    + field. lra.
    + first [ apply (proj1 (@ratio_le_cross _ _ _ _ Hiw Hih)) in Hle
            | apply (proj1 (@ratio_le_cross _ _ _ _ Hih Hiw)) in Hle ].
      apply Qle_shift_div_r; [exact Hih|]. lra.
Qed.

Lemma scaled_height_min (imgW imgH : Z) (pageW pageH : Q) :
  (0 < imgW)%Z -> (0 < imgH)%Z ->
  inject_Z imgH * py_min (pageW / inject_Z imgW) (pageH / inject_Z imgH)
  == Qmin pageH (inject_Z imgH * pageW / inject_Z imgW).
Proof.
  intros HW HH.
  pose proof (iw_pos HW) as Hiw. pose proof (ih_pos HH) as Hih.
  destruct (@scale_cases imgW imgH pageW pageH) as [[E Hle]|[E Hle]]; rewrite E.
  - rewrite Q.min_r.
    + field. lra.
    + first [ apply (proj1 (@ratio_le_cross _ _ _ _ Hiw Hih)) in Hle
            | apply (proj1 (@ratio_le_cross _ _ _ _ Hih Hiw)) in Hle ].
      apply Qle_shift_div_r; [exact Hiw|]. lra.
  - rewrite Q.min_l.
    + field. lra.
    + first [ apply (proj1 (@ratio_le_cross _ _ _ _ Hiw Hih)) in Hle
            | apply (proj1 (@ratio_le_cross _ _ _ _ Hih Hiw)) in Hle ].
      apply Qle_shift_div_l; [exact Hiw|]. lra.
Qed.

(** A rectangle is fixed by the page and its scaled width and height. *)
Lemma fit_rect_by_size (imgW imgH imgW' imgH' : Z) (pageW pageH : Q) :
  inject_Z imgW * py_min (pageW / inject_Z imgW) (pageH / inject_Z imgH)
  == inject_Z imgW' * py_min (pageW / inject_Z imgW') (pageH / inject_Z imgH') ->
  inject_Z imgH * py_min (pageW / inject_Z imgW) (pageH / inject_Z imgH)
  == inject_Z imgH' * py_min (pageW / inject_Z imgW') (pageH / inject_Z imgH') ->
  Rect_eq (fit_rect_keep_aspect imgW imgH pageW pageH)
          (fit_rect_keep_aspect imgW' imgH' pageW pageH).
Proof.
  intros Ew Eh.
  destruct (fit_rect_coordinates imgW imgH pageW pageH)
    as (E0 & E1 & E2 & E3 & _).
  destruct (fit_rect_coordinates imgW' imgH' pageW pageH)
    as (E0' & E1' & E2' & E3' & _).
  unfold Rect_eq. rewrite E0, E1, E2, E3, E0', E1', E2', E3', Ew, Eh.
  repeat split; reflexivity.
Qed.

(** X1: maximal fit.  Over the rationals, whenever the image scaled by
    some factor [s] fits the page on both axes, it is no larger than the
    returned rectangle: the chosen scale is the largest that fits. *)
Theorem fit_rect_is_largest_fit (imgW imgH : Z) (pageW pageH s : Q) :
  (0 < imgW)%Z -> (0 < imgH)%Z -> 0 < pageW -> 0 < pageH ->
  inject_Z imgW * s <= pageW -> inject_Z imgH * s <= pageH ->
  let r := fit_rect_keep_aspect imgW imgH pageW pageH in
  inject_Z imgW * s <= rect_width r /\ inject_Z imgH * s <= rect_height r.
Proof.
  intros HW HH HpW HpH Hsw Hsh r.
  pose proof (iw_pos HW) as Hiw. pose proof (ih_pos HH) as Hih.
  destruct (fit_rect_coordinates imgW imgH pageW pageH)
    as (_ & _ & _ & _ & Ew & Eh).
  fold r in Ew, Eh. rewrite Ew, Eh.
  rewrite (scaled_width_min pageW pageH HW HH),
          (scaled_height_min pageW pageH HW HH).
  assert (Hs_w : s <= pageW / inject_Z imgW)
    by (apply Qle_shift_div_l; [exact Hiw | lra]).
  assert (Hs_h : s <= pageH / inject_Z imgH)
    by (apply Qle_shift_div_l; [exact Hih | lra]).
  split; apply Q.min_glb; try assumption.
  - assert (E : inject_Z imgW * pageH / inject_Z imgH
                == inject_Z imgW * (pageH / inject_Z imgH)) by (field; lra).
    rewrite E. apply Qmult_le_l; assumption.
  - assert (E : inject_Z imgH * pageW / inject_Z imgW
                == inject_Z imgH * (pageW / inject_Z imgW)) by (field; lra).
    rewrite E. apply Qmult_le_l; assumption.
Qed.

Lemma fit_rect_is_largest_fit_witness :
  let r := fit_rect_keep_aspect 400 300 (A4_WIDTH_PT : Q) A4_HEIGHT_PT in
  400 * 1 <= rect_width r /\ 300 * 1 <= rect_height r.
Proof.
  apply (@fit_rect_is_largest_fit 400 300 A4_WIDTH_PT A4_HEIGHT_PT 1);
    try reflexivity; discriminate.
Defined.

(** X2: the rectangle depends on the image only through its aspect
    ratio.  Over the rationals, two images with
    [imgW / imgH = imgW' / imgH'] get the same rectangle on the same
    page, so the render resolution does not move the placement. *)
Theorem fit_rect_depends_on_aspect_only (imgW imgH imgW' imgH' : Z)
    (pageW pageH : Q) :
  (0 < imgW)%Z -> (0 < imgH)%Z -> (0 < imgW')%Z -> (0 < imgH')%Z ->
  (imgW * imgH' = imgW' * imgH)%Z ->
  Rect_eq (fit_rect_keep_aspect imgW imgH pageW pageH)
          (fit_rect_keep_aspect imgW' imgH' pageW pageH).
Proof.
  intros HW HH HW' HH' Hcross.
  pose proof (iw_pos HW) as Hiw. pose proof (ih_pos HH) as Hih.
  pose proof (iw_pos HW') as Hiw'. pose proof (ih_pos HH') as Hih'.
  assert (Hq : inject_Z imgW * inject_Z imgH' == inject_Z imgW' * inject_Z imgH)
    by (rewrite <- !inject_Z_mult, Hcross; reflexivity).
  assert (Ew : inject_Z imgW * pageH / inject_Z imgH
               == inject_Z imgW' * pageH / inject_Z imgH').
  { assert (E1 : inject_Z imgW * pageH / inject_Z imgH
                 == (inject_Z imgW * inject_Z imgH') * pageH
                    / (inject_Z imgH * inject_Z imgH')) by (field; lra).
    rewrite E1, Hq. field. lra. }
  assert (Eh : inject_Z imgH * pageW / inject_Z imgW
               == inject_Z imgH' * pageW / inject_Z imgW').
  { assert (E1 : inject_Z imgH' * pageW / inject_Z imgW'
                 == (inject_Z imgW * inject_Z imgH') * pageW
                    / (inject_Z imgW * inject_Z imgW')) by (field; lra).
    rewrite E1, Hq. field. lra. }
  apply fit_rect_by_size.
  - rewrite !scaled_width_min by assumption. rewrite Ew. reflexivity.
  - rewrite !scaled_height_min by assumption. rewrite Eh. reflexivity.
Qed.

Lemma fit_rect_depends_on_aspect_only_witness :
  Rect_eq (fit_rect_keep_aspect 1190 1684 (A4_WIDTH_PT : Q) A4_HEIGHT_PT)
          (fit_rect_keep_aspect 2380 3368 (A4_WIDTH_PT : Q) A4_HEIGHT_PT).
Proof.
  apply (@fit_rect_depends_on_aspect_only 1190 1684 2380 3368
           A4_WIDTH_PT A4_HEIGHT_PT); reflexivity.
Defined.

(** X3: exchanging the axes of both image and page exchanges the axes of
    the rectangle (over the rationals): what the landscape page does to
    a turned image is what the portrait page does to the image. *)
Theorem fit_rect_transpose (imgW imgH : Z) (pageW pageH : Q) :
  (0 < imgW)%Z -> (0 < imgH)%Z ->
  Rect_eq (fit_rect_keep_aspect imgH imgW pageH pageW)
          (transpose (fit_rect_keep_aspect imgW imgH pageW pageH)).
Proof.
  intros HW HH.
  destruct (fit_rect_coordinates imgW imgH pageW pageH)
    as (E0 & E1 & E2 & E3 & _).
  destruct (fit_rect_coordinates imgH imgW pageH pageW)
    as (E0' & E1' & E2' & E3' & _).
  unfold Rect_eq, transpose. cbn [x0 y0 x1 y1].
  rewrite E0, E1, E2, E3, E0', E1', E2', E3'.
  rewrite (scaled_width_min pageW pageH HW HH),
          (scaled_height_min pageW pageH HW HH),
          (scaled_width_min pageH pageW HH HW),
          (scaled_height_min pageH pageW HH HW).
  repeat split; reflexivity.
Qed.

Lemma fit_rect_transpose_witness :
  Rect_eq (fit_rect_keep_aspect 300 400 (A4_HEIGHT_PT : Q) A4_WIDTH_PT)
          (transpose (fit_rect_keep_aspect 400 300 (A4_WIDTH_PT : Q) A4_HEIGHT_PT)).
Proof.
  apply (@fit_rect_transpose 400 300 A4_WIDTH_PT A4_HEIGHT_PT); reflexivity.
Defined.

(** X4: which axis is filled.  Over the rationals, an image at least as
    wide as the page in proportion ([imgW/imgH >= pageW/pageH]) spans the
    page width, from [x0 = 0] to [x1 = pageW], with height
    [imgH*pageW/imgW]; an image at least as tall in proportion spans the
    page height.  An image of exactly the page's proportions covers the
    whole page. *)
Theorem fit_rect_filled_axis (imgW imgH : Z) (pageW pageH : Q) :
  (0 < imgW)%Z -> (0 < imgH)%Z -> 0 < pageW -> 0 < pageH ->
  let r := fit_rect_keep_aspect imgW imgH pageW pageH in
  (inject_Z imgH * pageW <= inject_Z imgW * pageH ->
   x0 r == 0 /\ x1 r == pageW /\
   rect_height r == inject_Z imgH * pageW / inject_Z imgW) /\
  (inject_Z imgW * pageH <= inject_Z imgH * pageW ->
   y0 r == 0 /\ y1 r == pageH /\
   rect_width r == inject_Z imgW * pageH / inject_Z imgH).
Proof.
  intros HW HH HpW HpH r.
  pose proof (iw_pos HW) as Hiw. pose proof (ih_pos HH) as Hih.
  destruct (fit_rect_coordinates imgW imgH pageW pageH)
    as (E0 & E1 & E2 & E3 & Ew & Eh).
  fold r in E0, E1, E2, E3, Ew, Eh.
  pose proof (scaled_width_min pageW pageH HW HH) as Mw.
  pose proof (scaled_height_min pageW pageH HW HH) as Mh.
  split; intros Hle.
  - assert (Hw : pageW <= inject_Z imgW * pageH / inject_Z imgH)
      by (apply Qle_shift_div_l; [exact Hih | lra]).
    assert (Hh : inject_Z imgH * pageW / inject_Z imgW <= pageH)
      by (apply Qle_shift_div_r; [exact Hiw | lra]).
    rewrite (Q.min_l _ _ Hw) in Mw. rewrite (Q.min_r _ _ Hh) in Mh.
    rewrite E0, E2, Eh, Mw, Mh. repeat split; try reflexivity; field.
  - assert (Hw : inject_Z imgW * pageH / inject_Z imgH <= pageW)
      by (apply Qle_shift_div_r; [exact Hih | lra]).
    assert (Hh : pageH <= inject_Z imgH * pageW / inject_Z imgW)
      by (apply Qle_shift_div_l; [exact Hiw | lra]).
    rewrite (Q.min_r _ _ Hw) in Mw. rewrite (Q.min_l _ _ Hh) in Mh.
    rewrite E1, E3, Ew, Mw, Mh. repeat split; try reflexivity; field.
Qed.

Lemma fit_rect_filled_axis_witness :
  let r := fit_rect_keep_aspect 400 300 (A4_WIDTH_PT : Q) A4_HEIGHT_PT in
  x0 r == 0 /\ x1 r == A4_WIDTH_PT /\
  rect_height r == 300 * A4_WIDTH_PT / 400.
Proof.
  refine (proj1 (@fit_rect_filled_axis 400 300 A4_WIDTH_PT A4_HEIGHT_PT
                   _ _ _ _) _); try reflexivity.
  discriminate.
Defined.

(** X5: the returned rectangle is never empty.  Over the rationals, for
    positive inputs, its width and height are positive, so [x0 < x1] and
    [y0 < y1]. *)
Theorem fit_rect_not_empty (imgW imgH : Z) (pageW pageH : Q) :
  (0 < imgW)%Z -> (0 < imgH)%Z -> 0 < pageW -> 0 < pageH ->
  let r := fit_rect_keep_aspect imgW imgH pageW pageH in
  0 < rect_width r /\ 0 < rect_height r /\ x0 r < x1 r /\ y0 r < y1 r.
Proof.
  intros HW HH HpW HpH r.
  destruct (fit_rect_coordinates imgW imgH pageW pageH)
    as (E0 & E1 & E2 & E3 & Ew & Eh).
  fold r in E0, E1, E2, E3, Ew, Eh.
  destruct (scaled_size_bounds HW HH HpW HpH) as [[Hw _] [Hh _]].
  rewrite E0, E1, E2, E3, Ew, Eh.
  revert Hw Hh.
  generalize (inject_Z imgW * py_min (pageW / inject_Z imgW) (pageH / inject_Z imgH)).
  generalize (inject_Z imgH * py_min (pageW / inject_Z imgW) (pageH / inject_Z imgH)).
  intros h w Hw Hh.
  assert (Ex : (pageW + w) / 2 == (pageW - w) / 2 + w) by field.
  assert (Ey : (pageH + h) / 2 == (pageH - h) / 2 + h) by field.
  rewrite Ex, Ey. repeat split; try assumption; lra.
Qed.

Lemma fit_rect_not_empty_witness :
  let r := fit_rect_keep_aspect 1 5000 (A4_WIDTH_PT : Q) A4_HEIGHT_PT in
  0 < rect_width r /\ 0 < rect_height r /\ x0 r < x1 r /\ y0 r < y1 r.
Proof.
  apply (@fit_rect_not_empty 1 5000 A4_WIDTH_PT A4_HEIGHT_PT); reflexivity.
Defined.

(* ================================================================= *)
(** ** More about the encoder *)

(** X6: [encode_pixmap_to_jpeg] always asks PyMuPDF first; whatever
    follows in the trace is a Pillow call; it changes neither the files
    nor the destination document; and when [get_image_data] returns
    bytes, those bytes are the result and Pillow is not called, whether
    it is installed or not. *)
Theorem encode_tries_pymupdf_first {T : Type} `{PyNum T} (env : Env T)
    (pix : Pixmap) (quality : Z) (w : World T) :
  exists r t,
    encode_pixmap_to_jpeg env pix quality w
    = (r, mkWorld (files w) (dst_pages w) (trace w ++ EvGetImageData :: t)) /\
    forallb is_pillow t = true /\
    match get_image_data env pix "jpeg" quality with
    | inr b => r = inr b /\ t = []
    | inl _ => True
    end.
Proof.
  unfold encode_pixmap_to_jpeg, try_except, pix_get_image_data,
    image_frombytes, image_save, bind, log, lift, lift_error, ret, raise.
  cbn [files dst_pages trace].
  destruct (get_image_data env pix "jpeg" quality) as [e|b].
  - destruct (Image env) as [pil|].
    + destruct (frombytes_error pil _ _ _) as [e'|]; cbn [files dst_pages trace].
      * eexists _, [EvFrombytes]. rewrite <- app_assoc. repeat split.
      * eexists _, [EvFrombytes; EvImageSave]. rewrite <- !app_assoc.
        repeat split.
    + eexists _, []. repeat split.
  - eexists _, []. repeat split.
Qed.

(** X7: the fallback.  When [get_image_data] raises and Pillow is
    installed, the image handed to Pillow has the pixmap's width, height
    and samples, mode ["L"] exactly when the pixmap has one channel and
    ["RGB"] otherwise, and is saved with the requested quality and
    [optimize=True]; the result of that save is the result.  If
    [Image.frombytes] raises, its exception is the outcome and nothing is
    saved. *)
Theorem encode_falls_back_to_pillow {T : Type} `{PyNum T} (env : Env T)
    (pix : Pixmap) (quality : Z) (w : World T) (e : exn) (pil : Pillow) :
  get_image_data env pix "jpeg" quality = inl e ->
  Image env = Some pil ->
  let mode := if (colorspace_n pix =? 1)%Z then "L"%string else "RGB"%string in
  let size := (pix_width pix, pix_height pix) in
  encode_pixmap_to_jpeg env pix quality w
  = match frombytes_error pil mode size (samples pix) with
    | Some e' =>
        (inl e',
         mkWorld (files w) (dst_pages w)
                 (trace w ++ [EvGetImageData; EvFrombytes]))
    | None =>
        (jpeg_save pil (mkPilImage mode size (samples pix)) quality true,
         mkWorld (files w) (dst_pages w)
                 (trace w ++ [EvGetImageData; EvFrombytes; EvImageSave]))
    end.
Proof.
  intros Hprimary Hpil mode size.
  unfold encode_pixmap_to_jpeg, try_except, pix_get_image_data,
    image_frombytes, image_save, bind, log, lift, lift_error, ret, raise.
  cbn [files dst_pages trace]. rewrite Hprimary, Hpil.
  fold mode. fold size.
  destruct (frombytes_error pil mode size (samples pix)) as [e'|];
    cbn [files dst_pages trace]; rewrite <- !app_assoc; reflexivity.
Qed.

Lemma encode_falls_back_to_pillow_witness :
  let pil := mkPillow (fun _ _ _ => None) (fun img _ _ => inr (img_data img)) in
  let env := mkEnv (fitz_open (demo_env_no_jpeg Q)) None
                   (get_pixmap (demo_env_no_jpeg Q))
                   (get_image_data (demo_env_no_jpeg Q))
                   (Some pil)
                   (new_page_error (demo_env_no_jpeg Q))
                   (insert_image_error (demo_env_no_jpeg Q))
                   (save_error (demo_env_no_jpeg Q)) in
  encode_pixmap_to_jpeg env (mkPixmap 2 1 1 [Byte.x10; Byte.x20]) 60
    (disk_with Q demo_input)
  = (inr [Byte.x10; Byte.x20],
     mkWorld (files (disk_with Q demo_input)) []
             [EvGetImageData; EvFrombytes; EvImageSave]).
Proof.
  cbv zeta.
  apply (@encode_falls_back_to_pillow Q _ _ (mkPixmap 2 1 1 [Byte.x10; Byte.x20])
           60 (disk_with Q demo_input)
           (OtherError "unsupported output format")
           (mkPillow (fun _ _ _ => None) (fun img _ _ => inr (img_data img))));
    reflexivity.
Defined.

(* ================================================================= *)
(** ** More about the page loop *)

Lemma forallb_weaken {A} (p q : A -> bool) (l : list A) :
  (forall a, p a = true -> q a = true) ->
  forallb p l = true -> forallb q l = true.
Proof.
  intros Hpq. rewrite !forallb_forall. intros Hl a Ha. apply Hpq, Hl, Ha.
Qed.

Lemma filter_none {A} (p q : A -> bool) (l : list A) :
  (forall a, p a = true -> q a = false) ->
  forallb p l = true -> filter q l = [].
Proof.
  intros Hpq. induction l as [|a l IH]; cbn; [reflexivity|].
  intros Hl. apply andb_prop in Hl. destruct Hl as [Ha Hl].
  rewrite (Hpq a Ha). apply IH, Hl.
Qed.

Lemma encoder_call_is_page_call (e : event) :
  is_encoder_call e = true -> is_page_call e = true.
Proof. destruct e; cbn; congruence. Qed.

Lemma encoder_call_is_no_render (e : event) :
  is_encoder_call e = true -> is_render e = false.
Proof. destruct e; cbn; congruence. Qed.

Lemma page_call_is_no_save (e : event) :
  is_page_call e = true -> is_save e = false.
Proof. destruct e; cbn; congruence. Qed.

Lemma string_app_inv_head (s a b : string) :
  (s ++ a)%string = (s ++ b)%string -> a = b.
Proof. induction s as [|c s IH]; cbn; [auto | intros [= E]; auto]. Qed.

Lemma path_eqb_eq (p q : Path) : path_eqb p q = true <-> p = q.
Proof.
  unfold path_eqb. destruct p as [dp np], q as [dq nq]. cbn [parent name].
  destruct (list_eq_dec string_dec dp dq) as [->|Hd]; cbn.
  - rewrite String.eqb_eq. split; [intros ->; reflexivity | intros [= ->]; reflexivity].
  - split; [discriminate | intros [= E _]; contradiction].
Qed.

(** The output path is never the input path. *)
Lemma output_differs_from_input (input : Path) :
  string_lower (suffix input) = ".pdf"%string ->
  path_eqb input (mkPath (parent input) (stem input ++ " (01).pdf")) = false.
Proof.
  intros Hsuf.
  destruct (path_eqb input _) eqn:E; [|reflexivity].
  apply path_eqb_eq in E. apply (f_equal name) in E. cbn [name] in E.
  rewrite <- (stem_suffix input) in E at 1.
  apply string_app_inv_head in E. rewrite E in Hsuf. discriminate.
Qed.

Section MorePages.
Context {T : Type} `{PyNum T}.
Variable env : Env T.
Local Open Scope pipeline_scope.

Lemma traces_only_ret {A} ok (a : A) : traces_only ok (ret (T := T) a).
Proof. intros w. split; [reflexivity|]. exists []. now rewrite app_nil_r. Qed.

Lemma traces_only_raise {A} ok (e : exn) :
  traces_only ok (raise (T := T) (A := A) e).
Proof. intros w. split; [reflexivity|]. exists []. now rewrite app_nil_r. Qed.

Lemma traces_only_lift {A} ok (r : exn + A) : traces_only ok (lift (T := T) r).
Proof. intros w. split; [reflexivity|]. exists []. now rewrite app_nil_r. Qed.

Lemma traces_only_lift_error ok (r : option exn) :
  traces_only ok (lift_error (T := T) r).
Proof.
  intros w. unfold lift_error.
  destruct r; (split; [reflexivity|]); exists []; now rewrite app_nil_r.
Qed.

Lemma traces_only_get_world ok : traces_only ok (get_world (T := T)).
Proof. intros w. split; [reflexivity|]. exists []. now rewrite app_nil_r. Qed.

Lemma traces_only_modify ok (f : World T -> World T) :
  (forall w, files (f w) = files w) -> (forall w, trace (f w) = trace w) ->
  traces_only ok (modify f).
Proof.
  intros Hf Ht w. cbn. split; [apply Hf|]. exists []. now rewrite Ht, app_nil_r.
Qed.

Lemma traces_only_log (ok : event -> bool) (e : event) :
  ok e = true -> traces_only ok (log (T := T) e).
Proof.
  intros He w. cbn. split; [reflexivity|]. exists [e]. cbn. now rewrite He.
Qed.

Lemma traces_only_bind {A B} ok (m : M T A) (k : A -> M T B) :
  traces_only ok m -> (forall a, traces_only ok (k a)) ->
  traces_only ok (bind m k).
Proof.
  intros Hm Hk w. unfold bind. destruct (Hm w) as (Hf & t & Et & Ht).
  destruct (m w) as [[e|a] w1]; cbn [snd] in *.
  - split; [exact Hf|]. exists t. split; assumption.
  - destruct (Hk a w1) as (Hf' & u & Eu & Hu).
    split; [congruence|]. exists (t ++ u).
    rewrite Eu, Et, app_assoc, forallb_app, Ht, Hu. split; reflexivity.
Qed.

Lemma traces_only_try_except {A} ok (body : M T A) (handler : exn -> M T A) :
  traces_only ok body -> (forall e, traces_only ok (handler e)) ->
  traces_only ok (try_except body handler).
Proof.
  intros Hb Hh w. unfold try_except. destruct (Hb w) as (Hf & t & Et & Ht).
  destruct (body w) as [[e|a] w1]; cbn [snd] in *.
  - destruct (Hh e w1) as (Hf' & u & Eu & Hu).
    split; [congruence|]. exists (t ++ u).
    rewrite Eu, Et, app_assoc, forallb_app, Ht, Hu. split; reflexivity.
  - split; [exact Hf|]. exists t. split; assumption.
Qed.

Lemma traces_only_for_each {A} ok (xs : list A) (body : A -> M T unit) :
  (forall x, traces_only ok (body x)) -> traces_only ok (for_each xs body).
Proof.
  intros Hb. induction xs as [|x xs IH]; cbn [for_each].
  - apply traces_only_ret.
  - apply traces_only_bind; [apply Hb | intros _; exact IH].
Qed.

Ltac traces_step :=
  first
    [ apply traces_only_bind; [|intro]
    | apply traces_only_ret | apply traces_only_raise | apply traces_only_lift
    | apply traces_only_lift_error | apply traces_only_get_world
    | apply traces_only_modify; intro; reflexivity
    | apply traces_only_log; reflexivity ].

Lemma traces_only_encode (pix : Pixmap) (quality : Z) :
  traces_only is_page_call (encode_pixmap_to_jpeg env pix quality).
Proof.
  unfold encode_pixmap_to_jpeg. apply traces_only_try_except.
  - unfold pix_get_image_data. repeat traces_step.
  - intros _. destruct (Image env) as [pil|]; [|apply traces_only_raise].
    unfold image_frombytes, image_save. repeat traces_step.
Qed.

(** One turn of the loop makes page calls only and leaves the files. *)
Lemma traces_only_rasterize_page src zoom quality grayscale page_w page_h i :
  traces_only is_page_call
    (rasterize_page env src zoom quality grayscale page_w page_h i).
Proof.
  unfold rasterize_page. apply traces_only_bind.
  - unfold load_page. apply traces_only_bind; [repeat traces_step|]. intros _.
    destruct (nth_error (src_pages src) i); traces_step.
  - intros page. apply traces_only_bind;
      [unfold page_get_pixmap; repeat traces_step|].
    intros pix. apply traces_only_bind; [apply traces_only_encode|].
    intros img_bytes. unfold doc_new_page, page_insert_image.
    repeat traces_step.
Qed.

(** The encoder's result, with the kind of calls it made. *)
Lemma encode_run_calls (pix : Pixmap) (quality : Z) (w : World T) :
  exists t,
    encode_pixmap_to_jpeg env pix quality w
    = (encoded env pix quality,
       mkWorld (files w) (dst_pages w) (trace w ++ t)) /\
    forallb is_encoder_call t = true.
Proof.
  unfold encode_pixmap_to_jpeg, encoded, try_except, pix_get_image_data,
    image_frombytes, image_save, bind, log, lift, lift_error, ret, raise.
  cbn [files dst_pages trace].
  destruct (get_image_data env pix "jpeg" quality) as [e|b].
  - destruct (Image env) as [pil|].
    + destruct (frombytes_error pil _ _ _) as [e'|]; cbn [files dst_pages trace].
      * exists [EvGetImageData; EvFrombytes]. now rewrite <- app_assoc.
      * exists [EvGetImageData; EvFrombytes; EvImageSave].
        now rewrite <- !app_assoc.
    + exists [EvGetImageData]. split; reflexivity.
  - exists [EvGetImageData]. split; reflexivity.
Qed.
End MorePages.

Section LoopOutcomes.
Context {T : Type} `{PyNum T}.
Variable env : Env T.
Variables (src : SrcDoc) (zoom : T) (quality : Z) (grayscale : bool).
Variables (page_w page_h : T).
Local Open Scope pipeline_scope.

(** A turn of the loop that returns has rendered the page at its index
    once and appended the page rebuilt from it. *)
Lemma rasterize_page_returns (i : nat) (w w' : World T) :
  rasterize_page env src zoom quality grayscale page_w page_h i w = (inr tt, w') ->
  exists pg op t,
    nth_error (src_pages src) i = Some pg /\
    rebuilt_page env zoom quality grayscale page_w page_h pg = Some op /\
    w' = mkWorld (files w) (dst_pages w ++ [op]) (trace w ++ t) /\
    filter is_render t = [EvGetPixmap pg] /\
    forallb is_page_call t = true.
Proof.
  unfold rasterize_page, load_page, page_get_pixmap, rebuilt_page.
  unfold bind at 1 2 3 4. unfold log at 1 2, lift at 1.
  cbn [files dst_pages trace].
  destruct (nth_error (src_pages src) i) as [pg|]; [|discriminate].
  unfold ret at 1.
  destruct (get_pixmap env pg zoom zoom _ false) as [e|pix] eqn:Hpix;
    [discriminate|].
  unfold bind at 1.
  match goal with
  | |- context [encode_pixmap_to_jpeg env pix quality ?w1] =>
      destruct (encode_run_calls env pix quality w1) as (t & Et & Ht);
      rewrite Et
  end.
  destruct (encoded env pix quality) as [e|b] eqn:Henc; [discriminate|].
  unfold doc_new_page, page_insert_image, bind, log, lift_error, get_world,
    modify, ret.
  cbn [files dst_pages trace].
  destruct (new_page_error env page_w page_h); [discriminate|].
  cbn [files dst_pages trace].
  destruct (insert_image_error env _ b); [discriminate|].
  cbn [files dst_pages trace]. rewrite update_page_last.
  cbn [page_width page_height images app].
  intros [= <-].
  exists pg. eexists.
  exists ([EvLoadPage i; EvGetPixmap pg] ++ t
          ++ [EvNewPage; EvInsertImage (List.length (dst_pages w))]).
  split; [reflexivity|]. split; [rewrite Hpix, Henc; reflexivity|].
  split; [rewrite <- !app_assoc; reflexivity|].
  split.
  - cbn [app filter is_render]. rewrite filter_app.
    rewrite (filter_none is_encoder_call is_render t encoder_call_is_no_render Ht).
    reflexivity.
  - cbn [app forallb is_page_call andb]. rewrite forallb_app.
    rewrite (forallb_weaken is_encoder_call is_page_call t
               encoder_call_is_page_call Ht).
    reflexivity.
Qed.

(** A turn of the loop on a page that does not render or encode raises. *)
Lemma rasterize_page_raises (i : nat) (pg : SrcPage) (w : World T) :
  nth_error (src_pages src) i = Some pg ->
  rebuilt_page env zoom quality grayscale page_w page_h pg = None ->
  exists e,
    fst (rasterize_page env src zoom quality grayscale page_w page_h i w) = inl e.
Proof.
  intros Hnth Hre.
  destruct (rasterize_page env src zoom quality grayscale page_w page_h i w)
    as [[e|[]] w'] eqn:E; [exists e; reflexivity|].
  apply rasterize_page_returns in E.
  destruct E as (pg' & op & t & Hnth' & Hop & _).
  congruence.
Qed.

(** When the loop returns, it has rendered each remaining page once, in
    order, and appended the rebuilt pages, in order. *)
Lemma page_loop_returns (rest : list SrcPage) :
  forall (done : list SrcPage) (w w' : World T),
    src_pages src = done ++ rest ->
    for_each (seq (List.length done) (List.length rest))
             (rasterize_page env src zoom quality grayscale page_w page_h) w
    = (inr tt, w') ->
    exists ops t,
      w' = mkWorld (files w) (dst_pages w ++ ops) (trace w ++ t) /\
      Forall2 (fun pg op =>
                 rebuilt_page env zoom quality grayscale page_w page_h pg
                 = Some op) rest ops /\
      filter is_render t = map EvGetPixmap rest /\
      forallb is_page_call t = true.
Proof.
  induction rest as [|pg rest IH]; intros done w w' Hsplit.
  - cbn. intros [= <-]. exists [], []. rewrite !app_nil_r.
    destruct w; repeat split. constructor.
  - cbn [List.length seq for_each]. unfold bind.
    destruct (rasterize_page env src zoom quality grayscale page_w page_h
                (List.length done) w) as [[e|[]] w1] eqn:E1; [discriminate|].
    apply rasterize_page_returns in E1.
    destruct E1 as (pg' & op & t & Hnth & Hop & -> & Hr & Hc).
    assert (pg' = pg) as ->.
    { rewrite Hsplit, nth_error_app2, Nat.sub_diag in Hnth by lia.
      now injection Hnth. }
    intros E2.
    assert (Hlen : S (List.length done) = List.length (done ++ [pg]))
      by (rewrite length_app; cbn; lia).
    rewrite Hlen in E2. apply IH in E2;
      [|rewrite Hsplit, <- app_assoc; reflexivity].
    destruct E2 as (ops & u & -> & Hops & Hr' & Hc').
    exists (op :: ops), (t ++ u). cbn [files dst_pages trace].
    rewrite <- !app_assoc. split; [reflexivity|].
    split; [constructor; assumption|].
    split.
    + rewrite filter_app, Hr, Hr'. reflexivity.
    + rewrite forallb_app, Hc, Hc'. reflexivity.
Qed.

(** When some remaining page does not render or encode, the loop raises. *)
Lemma page_loop_raises (rest : list SrcPage) :
  forall (done : list SrcPage) (w : World T),
    src_pages src = done ++ rest ->
    Exists (fun pg =>
              rebuilt_page env zoom quality grayscale page_w page_h pg = None)
           rest ->
    exists e,
      fst (for_each (seq (List.length done) (List.length rest))
             (rasterize_page env src zoom quality grayscale page_w page_h) w)
      = inl e.
Proof.
  intros done w Hsplit Hex.
  destruct (for_each _ _ w) as [[e|[]] w'] eqn:E; [exists e; reflexivity|].
  apply page_loop_returns in E; [|exact Hsplit].
  destruct E as (ops & t & _ & Hops & _).
  exfalso. clear -Hex Hops.
  induction Hops as [|pg op rest ops Hpg _ IH].
  - inversion Hex.
  - inversion Hex as [? ? Hnone|? ? Htail]; subst; [congruence | auto].
Qed.
End LoopOutcomes.

(* ================================================================= *)
(** ** More about the orchestrator *)

(** The shape of every run that returns a path. *)
Lemma rasterize_success_shape {T : Type} `{PyNum T} (env : Env T)
    (input : Path) (dpi quality : Z) (grayscale a4_portrait : bool)
    (w w' : World T) (p : Path) :
  rasterize_pdf_to_images_pdf env input dpi quality grayscale a4_portrait w
  = (inr p, w') ->
  let page_w : T := if a4_portrait then A4_WIDTH_PT else A4_HEIGHT_PT in
  let page_h : T := if a4_portrait then A4_HEIGHT_PT else A4_WIDTH_PT in
  let zoom : T := ndiv (of_int dpi) (of_int 72) in
  let out := mkPath (parent input) (stem input ++ " (01).pdf") in
  exists d ops t,
    files w input <> None /\
    string_lower (suffix input) = ".pdf"%string /\
    fitz_open env input = inr d /\
    needs_pass d = false /\
    p = out /\
    Forall2 (fun pg op =>
               rebuilt_page env zoom quality grayscale page_w page_h pg
               = Some op) (src_pages d) ops /\
    filter is_render t = map EvGetPixmap (src_pages d) /\
    forallb is_page_call t = true /\
    w' = mkWorld (fun q => if path_eqb q out then Some (SavedPdf ops)
                           else files w q)
                 ops
                 (trace w ++ [EvOpen input; EvOpenEmpty] ++ t
                          ++ [EvSave out; EvClose Src; EvClose Dst]).
Proof.
  intros E page_w page_h zoom out.
  assert (Hex : files w input <> None).
  { intros Hnone. revert E.
    unfold rasterize_pdf_to_images_pdf, path_exists, bind.
    rewrite Hnone. discriminate. }
  assert (Hsuf : string_lower (suffix input) = ".pdf"%string).
  { destruct (String.eqb_spec (string_lower (suffix input)) ".pdf")
      as [Hs|Hs]; [exact Hs|].
    exfalso. revert E.
    unfold rasterize_pdf_to_images_pdf, path_exists, bind.
    destruct (files w input); [|congruence]. cbn [negb].
    destruct (String.eqb_spec (string_lower (suffix input)) ".pdf");
      [congruence | discriminate]. }
  rewrite rasterize_after_checks in E by assumption.
  revert E.
  unfold doc_open, doc_open_empty, bind at 1 2 3 4 5, log, lift, lift_error, modify.
  cbn [files dst_pages trace].
  destruct (fitz_open env input) as [e|d]; [discriminate|].
  destruct (fitz_open_empty env) as [e|]; [discriminate|].
  cbn [files dst_pages trace].
  unfold try_finally, rasterize_body, doc_close.
  destruct (needs_pass d) eqn:Hpass; [discriminate|].
  subst page_w page_h zoom out.
  destruct a4_portrait;
    unfold bind at 1;
    match goal with
    | |- context [for_each ?xs ?body ?w2] =>
        destruct (for_each xs body w2) as [[e|[]] w3] eqn:Eloop
    end;
    try discriminate;
    apply (@page_loop_returns T _ env d _ _ _ _ _ (src_pages d) [] _ _ eq_refl)
      in Eloop;
    destruct Eloop as (ops & t & -> & Hops & Hr & Hc);
    unfold doc_save, bind, log, get_world, lift_error, modify, ret;
    cbn [files dst_pages trace app];
    (destruct (save_error env _ ops); [discriminate|]);
    cbn [files dst_pages trace];
    intros [= <- <-];
    exists d, ops, t;
    rewrite <- !app_assoc; cbn [app];
    repeat split; try assumption; reflexivity.
Qed.

(** X8: whatever the libraries do, when the call returns a path, the
    file at that path is a saved document with as many pages as the
    source; every page has the A4 size of the chosen orientation and
    carries exactly one image. *)
Theorem returned_path_holds_rebuilt_document {T : Type} `{PyNum T}
    (env : Env T) (input : Path) (dpi quality : Z)
    (grayscale a4_portrait : bool) (w w' : World T) (p : Path) :
  rasterize_pdf_to_images_pdf env input dpi quality grayscale a4_portrait w
  = (inr p, w') ->
  exists d pages,
    fitz_open env input = inr d /\
    files w' p = Some (SavedPdf pages) /\
    List.length pages = List.length (src_pages d) /\
    Forall (fun op =>
              page_width op = (if a4_portrait then A4_WIDTH_PT else A4_HEIGHT_PT) /\
              page_height op = (if a4_portrait then A4_HEIGHT_PT else A4_WIDTH_PT) /\
              List.length (images op) = 1%nat) pages.
Proof.
  intros E. apply rasterize_success_shape in E. cbv zeta in E.
  destruct E as (d & ops & t & _ & _ & Hopen & _ & -> & Hops & _ & _ & ->).
  exists d, ops. cbn [files]. rewrite path_eqb_refl.
  split; [exact Hopen|]. split; [reflexivity|].
  split; [symmetry; apply (Forall2_length Hops)|].
  clear -Hops. induction Hops as [|pg op pgs ops Hop _ IH]; constructor.
  - unfold rebuilt_page in Hop.
    destruct (get_pixmap env pg _ _ _ false) as [?|pix]; [discriminate|].
    destruct (encoded env pix quality) as [?|b]; [discriminate|].
    injection Hop as <-. repeat split.
  - exact IH.
Qed.

Lemma returned_path_holds_rebuilt_document_witness :
  exists d pages,
    fitz_open (demo_env float) demo_input = inr d /\
    files (snd (rasterize_pdf_to_images_pdf (demo_env float) demo_input 144 60
                  false false (disk_with float demo_input)))
          (mkPath ["C:"; "docs"] "report (01).pdf")
    = Some (SavedPdf pages) /\
    List.length pages = List.length (src_pages d) /\
    Forall (fun op =>
              page_width op = A4_HEIGHT_PT /\
              page_height op = A4_WIDTH_PT /\
              List.length (images op) = 1%nat) pages.
Proof.
  apply (@returned_path_holds_rebuilt_document float _ (demo_env float)
           demo_input 144 60 false false (disk_with float demo_input)).
  vm_compute. reflexivity.
Defined.

(** X9: when the call returns, [get_pixmap] has been called once on each
    page of the source, in page order, and on nothing else. *)
Theorem every_page_rendered_once_in_order {T : Type} `{PyNum T}
    (env : Env T) (input : Path) (dpi quality : Z)
    (grayscale a4_portrait : bool) (w w' : World T) (p : Path) :
  rasterize_pdf_to_images_pdf env input dpi quality grayscale a4_portrait w
  = (inr p, w') ->
  exists d t,
    fitz_open env input = inr d /\
    trace w' = trace w ++ t /\
    filter is_render t = map EvGetPixmap (src_pages d).
Proof.
  intros E. apply rasterize_success_shape in E. cbv zeta in E.
  destruct E as (d & ops & t & _ & _ & Hopen & _ & _ & _ & Hr & _ & ->).
  exists d. eexists. split; [exact Hopen|]. split; [reflexivity|].
  cbn [app filter is_render]. rewrite filter_app, Hr. cbn. apply app_nil_r.
Qed.

Lemma every_page_rendered_once_in_order_witness :
  exists d t,
    fitz_open (demo_env Q) demo_input = inr d /\
    trace (snd (rasterize_pdf_to_images_pdf (demo_env Q) demo_input 144 60
                  false true (disk_with Q demo_input)))
    = trace (disk_with Q demo_input) ++ t /\
    filter is_render t = map EvGetPixmap (src_pages d).
Proof.
  apply (@every_page_rendered_once_in_order Q _ (demo_env Q) demo_input 144 60
           false true (disk_with Q demo_input) _
           (mkPath ["C:"; "docs"] "report (01).pdf")).
  vm_compute. reflexivity.
Defined.

(** X10: when the call returns, [save] has been called exactly once, on
    the returned path, after every other call of the run except the two
    closes that follow it. *)
Theorem saved_once_at_the_end {T : Type} `{PyNum T}
    (env : Env T) (input : Path) (dpi quality : Z)
    (grayscale a4_portrait : bool) (w w' : World T) (p : Path) :
  rasterize_pdf_to_images_pdf env input dpi quality grayscale a4_portrait w
  = (inr p, w') ->
  exists t,
    trace w' = trace w ++ t ++ [EvSave p; EvClose Src; EvClose Dst] /\
    filter is_save t = [].
Proof.
  intros E. apply rasterize_success_shape in E. cbv zeta in E.
  destruct E as (d & ops & t & _ & _ & _ & _ & -> & _ & _ & Hc & ->).
  exists ([EvOpen input; EvOpenEmpty] ++ t). cbn [trace].
  rewrite <- !app_assoc. split; [reflexivity|].
  cbn [app filter is_save].
  apply (filter_none is_page_call is_save t page_call_is_no_save Hc).
Qed.

Lemma saved_once_at_the_end_witness :
  exists t,
    trace (snd (rasterize_pdf_to_images_pdf (demo_env Q) demo_input 144 60
                  true true (disk_with Q demo_input)))
    = trace (disk_with Q demo_input) ++ t
      ++ [EvSave (mkPath ["C:"; "docs"] "report (01).pdf");
          EvClose Src; EvClose Dst] /\
    filter is_save t = [].
Proof.
  apply (@saved_once_at_the_end Q _ (demo_env Q) demo_input 144 60
           true true (disk_with Q demo_input)).
  vm_compute. reflexivity.
Defined.

(** The protected body changes no file except, possibly, the one at the
    output path. *)
Lemma rasterize_body_frame {T : Type} `{PyNum T} (env : Env T) (src : SrcDoc)
    (out : Path) (dpi quality : Z) (grayscale a4_portrait : bool)
    (w : World T) (q : Path) :
  path_eqb q out = false ->
  files (snd (rasterize_body env src out dpi quality grayscale a4_portrait w)) q
  = files w q.
Proof.
  intros Hq. unfold rasterize_body.
  destruct (needs_pass src); [reflexivity|].
  destruct a4_portrait;
    unfold bind at 1;
    match goal with
    | |- context [for_each ?xs ?body w] =>
        destruct (traces_only_for_each xs body
                    (fun i => traces_only_rasterize_page env src _ quality
                                grayscale _ _ i) w) as (Hf & _);
        destruct (for_each xs body w) as [[e|[]] w1]
    end;
    cbn [snd] in *; try (rewrite Hf; reflexivity);
    unfold doc_save, bind, log, get_world, lift_error, modify, ret;
    cbn [files dst_pages trace];
    (destruct (save_error env out (dst_pages w1));
     cbn [snd files]; [|rewrite Hq]; rewrite Hf; reflexivity).
Qed.

(** X11: the call writes to one place only.  Whatever the libraries do
    and however the call ends, every file other than the one at the
    output path is as it was before, and so is the input file itself:
    the output path is never the input path. *)
Theorem only_the_output_path_is_written {T : Type} `{PyNum T}
    (env : Env T) (input : Path) (dpi quality : Z)
    (grayscale a4_portrait : bool) (w : World T) :
  let w' := snd (rasterize_pdf_to_images_pdf env input dpi quality grayscale
                   a4_portrait w) in
  (forall q, q <> mkPath (parent input) (stem input ++ " (01).pdf") ->
             files w' q = files w q) /\
  files w' input = files w input.
Proof.
  cbv zeta.
  assert (Hframe : forall q,
             path_eqb q (mkPath (parent input) (stem input ++ " (01).pdf")) = false ->
             files (snd (rasterize_pdf_to_images_pdf env input dpi quality
                           grayscale a4_portrait w)) q = files w q).
  { intros q Hq.
    destruct (files w input) as [f|] eqn:Hex.
    2:{ unfold rasterize_pdf_to_images_pdf, path_exists, bind.
        rewrite Hex. reflexivity. }
    destruct (String.eqb_spec (string_lower (suffix input)) ".pdf") as [Hs|Hs].
    2:{ unfold rasterize_pdf_to_images_pdf, path_exists, bind.
        rewrite Hex. cbn [negb].
        destruct (String.eqb_spec (string_lower (suffix input)) ".pdf");
          [congruence | reflexivity]. }
    rewrite rasterize_after_checks by congruence.
    unfold doc_open, doc_open_empty, bind at 1 2 3 4 5, log, lift, lift_error,
      modify.
    cbn [files dst_pages trace].
    destruct (fitz_open env input) as [e|d]; [reflexivity|].
    destruct (fitz_open_empty env) as [e|]; [reflexivity|].
    cbn [files dst_pages trace].
    unfold try_finally, doc_close, bind, log.
    match goal with
    | |- context [rasterize_body env d ?out dpi quality grayscale a4_portrait ?w2] =>
        pose proof (rasterize_body_frame env d out dpi quality grayscale
                      a4_portrait w2 q Hq) as Hb;
        destruct (rasterize_body env d out dpi quality grayscale a4_portrait w2)
          as [r w3]
    end.
    cbn [snd files] in *. exact Hb. }
  split.
  - intros q Hq. apply Hframe.
    destruct (path_eqb q _) eqn:E; [|reflexivity].
    apply path_eqb_eq in E. contradiction.
  - destruct (String.eqb_spec (string_lower (suffix input)) ".pdf") as [Hs|Hs].
    + apply Hframe, output_differs_from_input, Hs.
    + unfold rasterize_pdf_to_images_pdf, path_exists, bind.
      destruct (files w input) eqn:Hex; [|exact Hex]. cbn [negb].
      destruct (String.eqb_spec (string_lower (suffix input)) ".pdf");
        [congruence | exact Hex].
Qed.

(** X12: one page that cannot be rendered or encoded aborts the whole
    document.  With both documents open and no password asked, if some
    source page fails to render or to encode, the call raises, [save] is
    never called and the files are those from before the call. *)
Theorem failing_page_aborts_without_saving {T : Type} `{PyNum T}
    (env : Env T) (input : Path) (dpi quality : Z)
    (grayscale a4_portrait : bool) (w : World T) (d : SrcDoc) :
  let page_w : T := if a4_portrait then A4_WIDTH_PT else A4_HEIGHT_PT in
  let page_h : T := if a4_portrait then A4_HEIGHT_PT else A4_WIDTH_PT in
  let zoom : T := ndiv (of_int dpi) (of_int 72) in
  files w input <> None ->
  string_lower (suffix input) = ".pdf"%string ->
  fitz_open env input = inr d ->
  needs_pass d = false ->
  fitz_open_empty env = None ->
  Exists (fun pg =>
            rebuilt_page env zoom quality grayscale page_w page_h pg = None)
         (src_pages d) ->
  exists e w' t,
    rasterize_pdf_to_images_pdf env input dpi quality grayscale a4_portrait w
    = (inl e, w') /\
    files w' = files w /\
    trace w' = trace w ++ t /\
    filter is_save t = [].
Proof.
  intros page_w page_h zoom Hex Hsuf Hopen Hpass Hdst Hbad.
  rewrite rasterize_after_checks by assumption.
  unfold doc_open, doc_open_empty, bind at 1 2 3 4 5, log, lift, lift_error, modify.
  rewrite Hopen, Hdst. cbn [files dst_pages trace].
  unfold try_finally, rasterize_body, doc_close. rewrite Hpass.
  subst page_w page_h zoom.
  destruct a4_portrait;
    unfold bind at 1;
    match goal with
    | |- context [for_each ?xs ?body ?w2] =>
        destruct (traces_only_for_each xs body
                    (fun i => traces_only_rasterize_page env d _ quality
                                grayscale _ _ i) w2) as (Hf & t & Et & Ht);
        destruct (@page_loop_raises T _ env d _ quality grayscale _ _
                    (src_pages d) [] w2 eq_refl Hbad) as (e & He);
        cbn [List.length app] in He;
        destruct (for_each xs body w2) as [r w3]
    end;
    cbn [fst snd files trace] in *; subst r;
    unfold bind, log; cbn [files dst_pages trace];
    exists e; eexists;
    exists ([EvOpen input; EvOpenEmpty] ++ t ++ [EvClose Src; EvClose Dst]);
    (split; [reflexivity|]); cbn [files trace];
    (split; [exact Hf|]);
    (split; [rewrite Et, <- !app_assoc; reflexivity|]);
    cbn [app filter is_save]; rewrite filter_app;
    rewrite (filter_none is_page_call is_save t page_call_is_no_save Ht);
    reflexivity.
Qed.

Lemma failing_page_aborts_without_saving_witness :
  exists e w' t,
    rasterize_pdf_to_images_pdf (demo_env_no_jpeg Q) demo_input 144 60 false
      true (disk_with Q demo_input)
    = (inl e, w') /\
    files w' = files (disk_with Q demo_input) /\
    trace w' = trace (disk_with Q demo_input) ++ t /\
    filter is_save t = [].
Proof.
  apply (@failing_page_aborts_without_saving Q _ (demo_env_no_jpeg Q)
           demo_input 144 60 false true (disk_with Q demo_input) demo_doc).
  - discriminate.
  - reflexivity.
  - reflexivity.
  - reflexivity.
  - reflexivity.
  - apply Exists_cons_hd. reflexivity.
Defined.

(** X13: a source that PyMuPDF cannot open.  For an accepted path, when
    [fitz.open(input_pdf)] raises, that exception is the outcome; the
    destination document is never created, nothing is closed or saved,
    and the files are untouched. *)
Theorem unreadable_source_stops_the_run {T : Type} `{PyNum T}
    (env : Env T) (input : Path) (dpi quality : Z)
    (grayscale a4_portrait : bool) (w : World T) (e : exn) :
  files w input <> None ->
  string_lower (suffix input) = ".pdf"%string ->
  fitz_open env input = inl e ->
  rasterize_pdf_to_images_pdf env input dpi quality grayscale a4_portrait w
  = (inl e, mkWorld (files w) (dst_pages w) (trace w ++ [EvOpen input])).
Proof.
  intros Hex Hsuf Hopen.
  rewrite rasterize_after_checks by assumption.
  unfold doc_open, bind, log, lift. rewrite Hopen. reflexivity.
Qed.

Lemma unreadable_source_stops_the_run_witness :
  let env := mkEnv (fun _ => inl (OtherError "cannot open broken document"))
                   None
                   (get_pixmap (demo_env Q)) (get_image_data (demo_env Q)) None
                   (new_page_error (demo_env Q))
                   (insert_image_error (demo_env Q))
                   (save_error (demo_env Q)) in
  rasterize_pdf_to_images_pdf env demo_input 144 60 false true
    (disk_with Q demo_input)
  = (inl (OtherError "cannot open broken document"),
     mkWorld (files (disk_with Q demo_input)) [] [EvOpen demo_input]).
Proof.
  cbv zeta.
  apply (@unreadable_source_stops_the_run Q _ _ demo_input 144 60 false true
           (disk_with Q demo_input)
           (OtherError "cannot open broken document")).
  - discriminate.
  - reflexivity.
  - reflexivity.
Defined.

(** X14: a failing save.  When every page goes through and [save]
    raises, the call exits with that exception, after closing both
    documents: the last three calls are the save and the two closes. *)
Theorem failing_save_is_reported {T : Type} `{PyNum T}
    (env : Env T) (input : Path) (dpi quality : Z)
    (grayscale a4_portrait : bool) (w : World T) (d : SrcDoc) (e : exn) :
  let page_w : T := if a4_portrait then A4_WIDTH_PT else A4_HEIGHT_PT in
  let page_h : T := if a4_portrait then A4_HEIGHT_PT else A4_WIDTH_PT in
  let zoom : T := ndiv (of_int dpi) (of_int 72) in
  let out := mkPath (parent input) (stem input ++ " (01).pdf") in
  files w input <> None ->
  string_lower (suffix input) = ".pdf"%string ->
  fitz_open env input = inr d ->
  needs_pass d = false ->
  fitz_open_empty env = None ->
  Forall (page_goes_through env zoom quality grayscale page_w page_h)
         (src_pages d) ->
  (forall width height, new_page_error env width height = None) ->
  (forall rect stream, insert_image_error env rect stream = None) ->
  (forall pages, List.length pages = List.length (src_pages d) ->
                 save_error env out pages = Some e) ->
  exists w' t,
    rasterize_pdf_to_images_pdf env input dpi quality grayscale a4_portrait w
    = (inl e, w') /\
    trace w' = trace w ++ t ++ [EvSave out; EvClose Src; EvClose Dst].
Proof.
  intros page_w page_h zoom out Hex Hsuf Hopen Hpass Hdst Hpages Hnew Hins Hsave.
  rewrite rasterize_after_checks by assumption.
  unfold doc_open, doc_open_empty, bind at 1 2 3 4 5, log, lift, lift_error, modify.
  rewrite Hopen, Hdst. cbn [files dst_pages trace].
  unfold try_finally, rasterize_body. rewrite Hpass.
  set (w2 := mkWorld (files w) [] ((trace w ++ [EvOpen input]) ++ [EvOpenEmpty])).
  destruct (@page_loop_run T _ env d zoom quality grayscale page_w page_h
              Hnew Hins (src_pages d) [] w2 eq_refl Hpages)
    as (ops & t & Et & Hops).
  subst w2. cbn [List.length app files dst_pages trace] in Et.
  assert (Hlen : List.length ops = List.length (src_pages d))
    by (symmetry; apply (Forall2_length Hops)).
  subst page_w page_h zoom out.
  destruct a4_portrait;
    unfold bind at 1; rewrite Et;
    unfold doc_save, doc_close, bind, log, get_world, lift_error, modify, ret;
    cbn [files dst_pages trace app]; rewrite (Hsave ops Hlen);
    cbn [files dst_pages trace];
    eexists; exists ([EvOpen input; EvOpenEmpty] ++ t);
    (split; [reflexivity|]); cbn [trace];
    rewrite <- !app_assoc; reflexivity.
Qed.

Lemma failing_save_is_reported_witness :
  let env := mkEnv (fitz_open (demo_env Q)) None
                   (get_pixmap (demo_env Q)) (get_image_data (demo_env Q)) None
                   (new_page_error (demo_env Q))
                   (insert_image_error (demo_env Q))
                   (fun _ _ => Some (OtherError "disk full")) in
  exists w' t,
    rasterize_pdf_to_images_pdf env demo_input 144 60 false true
      (disk_with Q demo_input)
    = (inl (OtherError "disk full"), w') /\
    trace w' = trace (disk_with Q demo_input) ++ t
               ++ [EvSave (mkPath ["C:"; "docs"] "report (01).pdf");
                   EvClose Src; EvClose Dst].
Proof.
  cbv zeta.
  apply (@failing_save_is_reported Q _ _ demo_input 144 60 false true
           (disk_with Q demo_input) demo_doc (OtherError "disk full")).
  - discriminate.
  - reflexivity.
  - reflexivity.
  - reflexivity.
  - reflexivity.
  - repeat constructor; discriminate.
  - reflexivity.
  - reflexivity.
  - reflexivity.
Defined.

(* ================================================================= *)
(** ** Which names pass the extension check *)

Lemma lower_ascii_dot (c : ascii) : lower_ascii c = "."%char -> c = "."%char.
Proof.
  destruct c as [[] [] [] [] [] [] [] []]; cbn; intros E;
    first [reflexivity | discriminate E].
Qed.

Lemma lower_ascii_letter_not_dot (c l : ascii) :
  lower_ascii c = l -> l <> "."%char -> Ascii.eqb c "." = false.
Proof.
  intros E Hl. destruct (Ascii.eqb_spec c "."%char) as [->|]; [|reflexivity].
  exfalso. apply Hl. rewrite <- E. reflexivity.
Qed.

Lemma substring_prefix_nonempty (s : string) (i : nat) :
  (0 < i)%nat -> (i < String.length s)%nat -> substring 0 i s <> ""%string.
Proof.
  destruct i as [|i]; [lia|]. destruct s as [|c s]; cbn; [lia | discriminate].
Qed.

(** The check [suffix.lower() == ".pdf"] holds exactly for the names with
    a non-empty stem and an extension that is [.pdf] up to letter case. *)
Lemma pdf_suffix_iff (p : Path) :
  string_lower (suffix p) = ".pdf"%string <-> has_pdf_extension (name p).
Proof.
  split.
  - intros Hs. exists (stem p), (suffix p).
    split; [symmetry; apply stem_suffix|]. split; [|exact Hs].
    revert Hs. unfold suffix, stem, rfind_dot.
    destruct (rfind_dot_from (name p)) as [i|] eqn:E; [|cbn; discriminate].
    apply rfind_dot_from_bound in E.
    destruct ((0 <? Z.of_nat i) && _)%Z eqn:C; [|cbn; discriminate].
    intros _. apply andb_prop in C. destruct C as [C _].
    apply Z.ltb_lt in C. rewrite Nat2Z.id.
    apply substring_prefix_nonempty; lia.
  - intros (s & e & Hn & Hs & He).
    destruct e as [|c1 [|c2 [|c3 [|c4 [|c5 e]]]]]; try discriminate He.
    cbn in He. injection He as H1 H2 H3 H4.
    apply lower_ascii_dot in H1. subst c1.
    assert (D2 : Ascii.eqb c2 "." = false)
      by (apply (@lower_ascii_letter_not_dot _ _ H2); discriminate).
    assert (D3 : Ascii.eqb c3 "." = false)
      by (apply (@lower_ascii_letter_not_dot _ _ H3); discriminate).
    assert (D4 : Ascii.eqb c4 "." = false)
      by (apply (@lower_ascii_letter_not_dot _ _ H4); discriminate).
    unfold suffix, rfind_dot. rewrite Hn.
    rewrite (@rfind_dot_from_app s _ 0) by (cbn; rewrite D2, D3, D4; reflexivity).
    rewrite length_append. cbn [String.length].
    assert (Hlen : (0 < String.length s)%nat)
      by (destruct s; [congruence | cbn; lia]).
    replace ((0 <? Z.of_nat (String.length s + 0)) &&
             (Z.of_nat (String.length s + 0) <? Z.of_nat (String.length s + 4) - 1))%Z
      with true by (symmetry; apply andb_true_intro; split; apply Z.ltb_lt; lia).
    rewrite Nat2Z.id.
    replace (String.length s + 4 - (String.length s + 0))%nat with 4%nat by lia.
    rewrite substring_app_skip. cbn. rewrite H2, H3, H4. reflexivity.
Qed.

(** X15: which existing files get past the extension check.  A file
    whose name is a non-empty stem followed by [.pdf] in any letter case
    is handed to [fitz.open] (the first call of the run); any other
    existing file (no extension, a name that is only an extension such
    as [.pdf], another extension) is refused with
    [ValueError("Input must be a .pdf file")] and nothing is called. *)
Theorem extension_check_accepts_pdf_names {T : Type} `{PyNum T}
    (env : Env T) (input : Path) (dpi quality : Z)
    (grayscale a4_portrait : bool) (w : World T) :
  files w input <> None ->
  (has_pdf_extension (name input) ->
   exists t,
     trace (snd (rasterize_pdf_to_images_pdf env input dpi quality grayscale
                   a4_portrait w))
     = trace w ++ EvOpen input :: t) /\
  (~ has_pdf_extension (name input) ->
   rasterize_pdf_to_images_pdf env input dpi quality grayscale a4_portrait w
   = (inl (ValueError "Input must be a .pdf file"), w)).
Proof.
  intros Hex. split; intros Hname.
  - apply pdf_suffix_iff in Hname.
    rewrite rasterize_after_checks by assumption.
    unfold doc_open, doc_open_empty, bind at 1 2 3 4 5, log, lift, lift_error,
      modify.
    cbn [files dst_pages trace].
    destruct (fitz_open env input) as [e|d].
    { exists []. reflexivity. }
    destruct (fitz_open_empty env) as [e|]; cbn [snd files dst_pages trace].
    { exists [EvOpenEmpty]. rewrite <- app_assoc. reflexivity. }
    match goal with
    | |- context [try_finally ?body _ ?w2] =>
        destruct (try_finally_closes_once (body := body) w2
                    (quiet_rasterize_body env _ _ _ _ _ _))
          as (t & Et & _)
    end.
    exists (EvOpenEmpty :: t). rewrite Et. cbn [trace].
    rewrite <- !app_assoc. reflexivity.
  - assert (Hs : string_lower (suffix input) <> ".pdf"%string)
      by (intros Hs; apply Hname, pdf_suffix_iff, Hs).
    unfold rasterize_pdf_to_images_pdf, path_exists, bind.
    destruct (files w input); [|congruence]. cbn [negb].
    destruct (String.eqb_spec (string_lower (suffix input)) ".pdf");
      [congruence | reflexivity].
Qed.

Lemma extension_check_accepts_pdf_names_witness :
  let hidden := mkPath ["C:"; "docs"] ".pdf" in
  rasterize_pdf_to_images_pdf (demo_env Q) hidden 144 60 false true
    (disk_with Q hidden)
  = (inl (ValueError "Input must be a .pdf file"), disk_with Q hidden).
Proof.
  cbv zeta.
  refine (proj2 (@extension_check_accepts_pdf_names Q _ (demo_env Q)
                   (mkPath ["C:"; "docs"] ".pdf") 144 60 false true
                   (disk_with Q (mkPath ["C:"; "docs"] ".pdf")) _) _).
  - discriminate.
  - intros (s & e & Hn & Hs & He). cbn [name] in Hn.
    destruct s as [|c s]; [congruence|].
    destruct e as [|c1 [|c2 [|c3 [|c4 [|c5 e]]]]]; try discriminate He.
    apply (f_equal String.length) in Hn. rewrite length_append in Hn.
    cbn in Hn. lia.
Defined.

(* ================================================================= *)
(** ** The file picker *)

(** X16: when [select_file] does no work.  If the dialog is cancelled it
    shows nothing and calls nothing; if the chosen path does not exist,
    or exists without a [.pdf] extension, it shows one error box with
    the message of the exception and, again, no library call is made and
    no file is touched. *)
Theorem select_file_without_work {T : Type} `{PyNum T} (env : Env T)
    (gui : Gui) (w : World T) :
  let input := Path_of_string gui (askopenfilename gui) in
  (askopenfilename gui = ""%string -> select_file env gui w = ([], w)) /\
  (askopenfilename gui <> ""%string -> files w input = None ->
   select_file env gui w
   = ([showerror "שגיאה"
         ("אירעה שגיאה:" ++ newline ++ "Input not found: " ++ path_str input)],
      w)) /\
  (askopenfilename gui <> ""%string -> files w input <> None ->
   ~ has_pdf_extension (name input) ->
   select_file env gui w
   = ([showerror "שגיאה"
         ("אירעה שגיאה:" ++ newline ++ "Input must be a .pdf file")], w)).
Proof.
  intros input. unfold select_file. fold input.
  split; [|split].
  - intros ->. reflexivity.
  - intros Hchosen Hnone.
    destruct (String.eqb_spec (askopenfilename gui) ""); [contradiction|].
    unfold rasterize_pdf_to_images_pdf, path_exists, bind.
    rewrite Hnone. reflexivity.
  - intros Hchosen Hex Hname.
    destruct (String.eqb_spec (askopenfilename gui) ""); [contradiction|].
    assert (Hs : string_lower (suffix input) <> ".pdf"%string)
      by (intros Hs; apply Hname, pdf_suffix_iff, Hs).
    unfold rasterize_pdf_to_images_pdf, path_exists, bind.
    destruct (files w input); [|congruence]. cbn [negb].
    destruct (String.eqb_spec (string_lower (suffix input)) ".pdf");
      [congruence | reflexivity].
Qed.

(** X17: the success box tells the truth.  Whenever [select_file] shows
    an information box, its message ends with a path at which a saved
    document now exists, with as many pages as the chosen source
    document. *)
Theorem success_box_names_a_saved_document {T : Type} `{PyNum T}
    (env : Env T) (gui : Gui) (w : World T) (title message : string) :
  In (showinfo title message) (fst (select_file env gui w)) ->
  exists out d pages,
    message = ("הקובץ נוצר בהצלחה:" ++ newline ++ path_str out)%string /\
    fitz_open env (Path_of_string gui (askopenfilename gui)) = inr d /\
    files (snd (select_file env gui w)) out = Some (SavedPdf pages) /\
    List.length pages = List.length (src_pages d).
Proof.
  unfold select_file.
  destruct (String.eqb (askopenfilename gui) ""); [intros []|].
  destruct (rasterize_pdf_to_images_pdf env _ 144 60 false true w)
    as [[e|p] w'] eqn:E; cbn [fst snd In].
  - intros [Hd|[]]. discriminate Hd.
  - intros [Hd|[]]. injection Hd as _ <-.
    apply rasterize_success_shape in E. cbv zeta in E.
    destruct E as (d & ops & t & _ & _ & Hopen & _ & -> & Hops & _ & _ & ->).
    eexists. exists d, ops. cbn [files]. rewrite path_eqb_refl.
    split; [reflexivity|]. split; [exact Hopen|]. split; [reflexivity|].
    symmetry. apply (Forall2_length Hops).
Qed.

Lemma success_box_names_a_saved_document_witness :
  exists out d pages,
    ("הקובץ נוצר בהצלחה:" ++ newline ++ "C:\docs\report (01).pdf")%string
    = ("הקובץ נוצר בהצלחה:" ++ newline ++ path_str out)%string /\
    fitz_open (demo_env Q) (Path_of_string demo_gui (askopenfilename demo_gui))
    = inr d /\
    files (snd (select_file (demo_env Q) demo_gui (disk_with Q demo_input))) out
    = Some (SavedPdf pages) /\
    List.length pages = List.length (src_pages d).
Proof.
  apply (@success_box_names_a_saved_document Q _ (demo_env Q) demo_gui
           (disk_with Q demo_input) "הצלחה").
  vm_compute. left. reflexivity.
Defined.

(* ================================================================= *)
(** ** Page count and page order *)

(** C2 (amended): for an existing, [.pdf]-suffixed, unencrypted input,
    whenever the call returns, it returns the output path and the
    document saved there has as many pages as the input, its page at
    each index being the page rebuilt from the source page at the same
    index, so the pages are appended in source order; and the call does
    return when the destination opens, every page renders and encodes,
    and appending a page, placing an image and saving go through. *)
Theorem rasterize_page_count_preserved {T : Type} `{PyNum T} (env : Env T)
    (input : Path) (dpi quality : Z) (grayscale a4_portrait : bool)
    (w : World T) (d : SrcDoc) :
  let page_w : T := if a4_portrait then A4_WIDTH_PT else A4_HEIGHT_PT in
  let page_h : T := if a4_portrait then A4_HEIGHT_PT else A4_WIDTH_PT in
  let zoom : T := ndiv (of_int dpi) (of_int 72) in
  let out := mkPath (parent input) (stem input ++ " (01).pdf") in
  files w input <> None ->
  string_lower (suffix input) = ".pdf"%string ->
  fitz_open env input = inr d ->
  needs_pass d = false ->
  (forall p w',
     rasterize_pdf_to_images_pdf env input dpi quality grayscale a4_portrait w
     = (inr p, w') ->
     p = out /\
     exists pages,
       files w' out = Some (SavedPdf pages) /\
       List.length pages = List.length (src_pages d) /\
       Forall2 (fun pg op =>
                  rebuilt_page env zoom quality grayscale page_w page_h pg
                  = Some op) (src_pages d) pages) /\
  (fitz_open_empty env = None ->
   Forall (page_goes_through env zoom quality grayscale page_w page_h)
          (src_pages d) ->
   writes_go_through env out (List.length (src_pages d)) ->
   exists w',
     rasterize_pdf_to_images_pdf env input dpi quality grayscale a4_portrait w
     = (inr out, w')).
Proof.
  intros page_w page_h zoom out Hex Hsuf Hopen Hpass. split.
  - intros p w' E. apply rasterize_success_shape in E. cbv zeta in E.
    destruct E as (d' & ops & t & _ & _ & Hopen' & _ & -> & Hops & _ & _ & ->).
    assert (d' = d) as -> by congruence.
    split; [reflexivity|]. exists ops. cbn [files].
    fold out. rewrite path_eqb_refl.
    split; [reflexivity|]. split; [symmetry; apply (Forall2_length Hops)|].
    exact Hops.
  - intros Hdst Hpages Hwrites.
    destruct (@rasterize_preserves_pages T _ env input dpi quality grayscale
                a4_portrait w d Hex Hsuf Hopen Hpass Hdst Hpages Hwrites)
      as (pages & w' & E & _).
    exists w'. exact E.
Qed.

Lemma rasterize_page_count_preserved_witness :
  let out := mkPath ["C:"; "docs"] "report (01).pdf" in
  let run := rasterize_pdf_to_images_pdf (demo_env float) demo_input 144 60
               false true (disk_with float demo_input) in
  (forall p w',
     run = (inr p, w') ->
     p = out /\
     exists pages,
       files w' out = Some (SavedPdf pages) /\
       List.length pages = 3%nat /\
       Forall2 (fun pg op =>
                  rebuilt_page (demo_env float) (ndiv (of_int 144) (of_int 72))
                    60 false A4_WIDTH_PT A4_HEIGHT_PT pg
                  = Some op) (src_pages demo_doc) pages) /\
  (exists w', run = (inr out, w')).
Proof.
  cbv zeta.
  destruct (@rasterize_page_count_preserved float _ (demo_env float)
              demo_input 144 60 false true (disk_with float demo_input)
              demo_doc)
    as [Hreturned Hreturns].
  - discriminate.
  - reflexivity.
  - reflexivity.
  - reflexivity.
  - split.
    + exact Hreturned.
    + apply Hreturns.
      * reflexivity.
      * repeat constructor; discriminate.
      * repeat split; intros; reflexivity.
Defined.

(** C2, as stated, fails on a source without pages: the input exists,
    ends in [.pdf] and asks for no password, the loop has nothing to do,
    [save] refuses the empty destination, the call raises and there is
    no file at the output path. *)
Lemma source_without_pages_is_not_saved :
  let out := mkPath ["C:"; "docs"] "report (01).pdf" in
  let run := rasterize_pdf_to_images_pdf (demo_env_no_pages Q) demo_input
               144 60 false true (disk_with Q demo_input) in
  files (disk_with Q demo_input) demo_input <> None /\
  string_lower (suffix demo_input) = ".pdf"%string /\
  fitz_open (demo_env_no_pages Q) demo_input = inr (mkSrcDoc false []) /\
  fst run = inl (ValueError "cannot save with zero pages") /\
  trace (snd run)
  = [EvOpen demo_input; EvOpenEmpty; EvSave out; EvClose Src; EvClose Dst] /\
  files (snd run) out = None.
Proof.
  cbv zeta. split; [discriminate|]. repeat split.
Qed.
